(** * irmin-go: the HTTP+JSON client of an Irmin store

    A shallow embedding of [irmin/http.go] (package [irmin]) and the
    properties of its command and streaming layer.

    Embedded: [Create], [FromTree], [Tree], [TaskOwner], [SetTaskOwner],
    [MakeCallUrl], [runCommand], [runStreamCommand], [Read], [ReadString],
    [Update], [Remove], [RemoveRec], [Iter], [Clone] and [CompareAndSet];
    further on [NewTask], [AvailableCommands], [Version], [List] and [Mem],
    and the loop of the example program that prints every key with its
    value.

    Conventions of the embedding.
    - A Go [string] and a Go [[]byte] are finite sequences of 8-bit bytes;
      both are [String.string] here (a Rocq [ascii] is one byte), so the
      conversions [string(b)] and [[]byte(s)] are the identity.
    - A Go [error] is a value of [error]; the [nil] error is [None] of
      [option error].
    - A pointer [*RestConn] is a location in a store of connections.
    - The program's observable actions (standard output, HTTP requests,
      closing a response body) are recorded, in program order, as a list of
      [Event]s.
    - Functions of Go's standard library are modelled in [Module Go]; the
      pieces of the package that live outside [http.go] (the path and value
      codecs) are parameters of the development or, where a closed
      evaluation needs them, modelled from the specification's words. *)

From Stdlib Require Import String Ascii ZArith List Lia.
From stdpp Require Import gmap strings list pretty.
From Equations Require Import Equations.

Open Scope string_scope.
Set Warnings "-register-all".

(** ** Errors *)

(** The errors the package can return.  [Errorf] keeps the call
    [fmt.Errorf(format, args...)] as the source writes it: several call
    sites use a string received from the server as the format. *)
Inductive error : Type :=
| Errorf (format : string) (args : list string)
| ErrUnknownCommandType (ct : Z)       (* fmt.Errorf("unknown command type %d", ct) *)
| ErrURL (msg : string)                (* from net/url *)
| ErrTransport (msg : string)          (* from net/http and io *)
| ErrJSONSyntax                        (* *json.SyntaxError, io.EOF, io.ErrUnexpectedEOF *)
| ErrJSONType (field : string)         (* *json.UnmarshalTypeError *)
| ErrCodec (msg : string).             (* from the package's own UnmarshalJSON methods *)

(** ** Models of the Go standard library *)

Module Go.

(** *** fmt *)

(** [fmt.Sprintf] on string operands, for the verbs [%s], [%v] and [%%]
    without flags, which is what the package passes to it.  A verb with no operand left prints
    [%!s(MISSING)]; a [%] at the end of the format prints [%!(NOVERB)];
    operands left over are reported as [%!(EXTRA string=..., ...)]. *)
Fixpoint Sprintf_go (format : string) (args : list string) : string * list string :=
  match format with
  | EmptyString => ("", args)
  | String "%" rest =>
      match rest with
      | EmptyString => ("%!(NOVERB)", args)
      | String "%" rest' =>
          let (out, left) := Sprintf_go rest' args in ("%" ++ out, left)
      | String verb rest' =>
          match args with
          | [] =>
              let (out, left) := Sprintf_go rest' [] in
              ("%!" ++ String verb "(MISSING)" ++ out, left)
          | a :: args' =>
              let (out, left) := Sprintf_go rest' args' in
              ((if (Ascii.eqb verb "s" || Ascii.eqb verb "v")%bool then a
                else "%!" ++ String verb "(string=" ++ a ++ ")") ++ out, left)
          end
      end
  | String c rest =>
      let (out, left) := Sprintf_go rest args in (String c out, left)
  end.

Definition extra_operands (left : list string) : string :=
  match left with
  | [] => ""
  | _ => "%!(EXTRA " ++ String.concat ", " (map (fun a => "string=" ++ a) left) ++ ")"
  end.

Definition Sprintf (format : string) (args : list string) : string :=
  let (out, left) := Sprintf_go format args in out ++ extra_operands left.

(** *** net/url: QueryEscape *)

Definition hex_digit (n : N) : ascii :=
  match n with
  | 0 => "0" | 1 => "1" | 2 => "2" | 3 => "3" | 4 => "4" | 5 => "5"
  | 6 => "6" | 7 => "7" | 8 => "8" | 9 => "9" | 10 => "A" | 11 => "B"
  | 12 => "C" | 13 => "D" | 14 => "E" | _ => "F"
  end%N%char.

Definition is_alnum (c : ascii) : bool :=
  let n := N_of_ascii c in
  ((48 <=? n) && (n <=? 57) || (65 <=? n) && (n <=? 90) || (97 <=? n) && (n <=? 122))%N%bool.

(** [shouldEscape(c, encodeQueryComponent)]: letters, digits and the
    unreserved marks [-_.~] are kept, every other byte is escaped. *)
Definition shouldEscape (c : ascii) : bool :=
  negb (is_alnum c || Ascii.eqb c "-" || Ascii.eqb c "_" || Ascii.eqb c "." || Ascii.eqb c "~").

Fixpoint QueryEscape (s : string) : string :=
  match s with
  | EmptyString => ""
  | String c rest =>
      if Ascii.eqb c " " then String "+" (QueryEscape rest)
      else if shouldEscape c then
        let n := N_of_ascii c in
        String "%" (String (hex_digit (n / 16)) (String (hex_digit (n mod 16)) (QueryEscape rest)))
      else String c (QueryEscape rest)
  end.

(** *** unicode/utf8: Valid *)

Definition in_range (lo hi : N) (c : ascii) : bool :=
  let n := N_of_ascii c in ((lo <=? n) && (n <=? hi))%N%bool.

Definition cont (c : ascii) : bool := in_range 128 191 c.

(** [utf8.Valid]: the bytes are a sequence of well-formed UTF-8 encodings
    (no overlong forms, no surrogates, nothing above U+10FFFF), following the
    table of first bytes and accept ranges of the library. *)
Fixpoint utf8_Valid (p : string) : bool :=
  match p with
  | EmptyString => true
  | String b0 t =>
      if in_range 0 127 b0 then utf8_Valid t
      else if in_range 194 223 b0 then
        match t with
        | String c1 t1 => cont c1 && utf8_Valid t1
        | _ => false
        end
      else if in_range 224 239 b0 then
        match t with
        | String c1 (String c2 t2) =>
            (if Ascii.eqb b0 "224" then in_range 160 191 c1
             else if Ascii.eqb b0 "237" then in_range 128 159 c1
             else cont c1) && cont c2 && utf8_Valid t2
        | _ => false
        end
      else if in_range 240 244 b0 then
        match t with
        | String c1 (String c2 (String c3 t3)) =>
            (if Ascii.eqb b0 "240" then in_range 144 191 c1
             else if Ascii.eqb b0 "244" then in_range 128 143 c1
             else cont c1) && cont c2 && cont c3 && utf8_Valid t3
        | _ => false
        end
      else false
  end.

End Go.

(** ** JSON values and decoding into the package's structs *)

Inductive result (A : Type) : Type :=
| Ok (a : A)
| Err (e : error).
Arguments Ok {A} a.
Arguments Err {A} e.

(** A parsed JSON text.  Numbers are integers: the package only reads
    numbers as byte values. *)
Inductive JSON : Type :=
| JNull
| JBool (b : bool)
| JNumber (n : Z)
| JString (s : string)
| JArray (items : list JSON)
| JObject (members : list (string * JSON)).

Module Json.

Definition lower (c : ascii) : ascii :=
  let n := N_of_ascii c in
  if ((65 <=? n) && (n <=? 90))%N%bool then ascii_of_N (n + 32) else c.

Fixpoint lower_string (s : string) : string :=
  match s with
  | EmptyString => EmptyString
  | String c r => String (lower c) (lower_string r)
  end.

(** encoding/json matches an object key to a struct field by name,
    ignoring the case of ASCII letters. *)
Definition fold_eq (field key : string) : bool :=
  String.eqb (lower_string field) (lower_string key).

(** Decoding the members of a JSON object into a struct [S], in order.
    [field key] is the store operation of the field that [key] names, if
    any; members naming no field are skipped; a later member overwrites an
    earlier one.  The first failing field stops the decoding: the struct
    keeps what was stored before it. *)
Fixpoint decode_members {S : Type} (field : string -> option (JSON -> S -> result S))
    (members : list (string * JSON)) (s : S) : S * option error :=
  match members with
  | [] => (s, None)
  | (k, v) :: rest =>
      match field k with
      | None => decode_members field rest s
      | Some store =>
          match store v s with
          | Ok s' => decode_members field rest s'
          | Err e => (s, Some e)
          end
      end
  end.

(** Decoding one JSON value into a struct: an object fills the fields,
    [null] leaves the struct as it is, anything else is a type error. *)
Definition decode_struct {S : Type} (name : string)
    (field : string -> option (JSON -> S -> result S)) (j : JSON) (s : S) : S * option error :=
  match j with
  | JObject members => decode_members field members s
  | JNull => (s, None)
  | _ => (s, Some (ErrJSONType name))
  end.

Fixpoint decode_list {A : Type} (elem : JSON -> result A) (items : list JSON) : result (list A) :=
  match items with
  | [] => Ok []
  | j :: rest =>
      match elem j with
      | Err e => Err e
      | Ok a =>
          match decode_list elem rest with
          | Err e => Err e
          | Ok l => Ok (a :: l)
          end
      end
  end.

(** Decoding into a slice: an array replaces the slice, [null] empties it. *)
Definition decode_slice {A : Type} (name : string) (elem : JSON -> result A) (j : JSON)
    : result (list A) :=
  match j with
  | JArray items => decode_list elem items
  | JNull => Ok []
  | _ => Err (ErrJSONType name)
  end.

End Json.

(** ** The value codec *)

(** [IrminString] is the package's byte-string type ([[]byte] underneath:
    [http.go] converts [*[]byte] to [*IrminString] and compares an
    [IrminString] with [bytes.Equal]). *)
Definition IrminString : Type := string.

(** Modelled from the spec: the [String] method of [IrminString], declared
    outside [http.go]; the payload viewed as a Go string. *)
Definition IrminString_String (i : IrminString) : string := i.

Definition byte_of_JSON (j : JSON) : result ascii :=
  match j with
  | JNumber n =>
      if ((0 <=? n) && (n <? 256))%Z%bool then Ok (ascii_of_N (Z.to_N n))
      else Err (ErrCodec "byte value out of range")
  | _ => Err (ErrCodec "byte value expected")
  end.

Fixpoint string_of_bytes (l : list ascii) : string :=
  match l with
  | [] => EmptyString
  | c :: r => String c (string_of_bytes r)
  end.

Fixpoint bytes_of_string (s : string) : list ascii :=
  match s with
  | EmptyString => []
  | String c r => c :: bytes_of_string r
  end.

(** Modelled from the spec: [IrminString.UnmarshalJSON], declared outside
    [http.go].  The server sends a value either as a JSON string or as an
    array of byte values; both decode to the raw bytes. *)
Definition IrminString_UnmarshalJSON (j : JSON) : result IrminString :=
  match j with
  | JString s => Ok s
  | JArray items =>
      match Json.decode_list byte_of_JSON items with
      | Ok l => Ok (string_of_bytes l)
      | Err e => Err e
      end
  | _ => Err (ErrCodec "string or byte array expected")
  end.

(** Modelled from the spec: [IrminString.MarshalJSON], declared outside
    [http.go]: a UTF-8 string where the bytes are valid UTF-8, else an array
    of byte values. *)
Definition IrminString_MarshalJSON (i : IrminString) : result JSON :=
  if Go.utf8_Valid i then Ok (JString i)
  else Ok (JArray (map (fun c => JNumber (Z.of_N (N_of_ascii c))) (bytes_of_string i))).

(** ** The package's data *)

(** [SubCommandType] is an [int]; the three named constants are 0, 1, 2. *)
Definition SubCommandType : Type := Z.
Definition COMMAND_PLAIN : SubCommandType := 0%Z.
Definition COMMAND_TREE : SubCommandType := 1%Z.
Definition COMMAND_TAG : SubCommandType := 2%Z.

Record StringArrayReply : Type := mkStringArrayReply {
  sar_Result : list IrminString;
  sar_Error : IrminString;
  sar_Version : IrminString }.

Record StringReply : Type := mkStringReply {
  sr_Result : IrminString;
  sr_Error : IrminString;
  sr_Version : IrminString }.

Record Task : Type := mkTask {
  Date : string;
  Uid : string;
  Owner : IrminString;
  Messages : list IrminString }.

(** [Data] is a [json.RawMessage]: [None] is the nil message, which
    [omitempty] leaves out; [Some j] is the text of the JSON value [j]. *)
Record PostRequest : Type := mkPostRequest {
  post_Task : Task;
  post_Data : option JSON }.

Definition ReadReply : Type := StringArrayReply.
Definition CloneReply : Type := StringReply.
Definition UpdateReply : Type := StringReply.
Definition RemoveReply : Type := StringReply.

(** [Result] is a [json.RawMessage]: [None] when no "result" member was
    decoded (length 0), [Some j] when it holds the text of [j]. *)
Record StreamReply : Type := mkStreamReply {
  st_Error : IrminString;
  st_Result : option JSON }.

(** The zero values of the reply structs ([var data CloneReply]). *)
Definition zero_StringReply : StringReply := mkStringReply "" "" "".
Definition zero_StringArrayReply : StringArrayReply := mkStringArrayReply [] "" "".
Definition zero_StreamReply : StreamReply := mkStreamReply "" None.

(** *** Decoding the reply structs *)

Definition first_match {S : Type} (fields : list (string * (JSON -> S -> result S)))
    (key : string) : option (JSON -> S -> result S) :=
  snd <$> List.find (fun f => Json.fold_eq (fst f) key) fields.

Definition store_string {S : Type} (set : IrminString -> S -> S) (j : JSON) (s : S) : result S :=
  match IrminString_UnmarshalJSON j with
  | Ok v => Ok (set v s)
  | Err e => Err e
  end.

Definition StringReply_fields : list (string * (JSON -> StringReply -> result StringReply)) :=
  [ ("Result", store_string (fun v s => mkStringReply v (sr_Error s) (sr_Version s)));
    ("Error", store_string (fun v s => mkStringReply (sr_Result s) v (sr_Version s)));
    ("Version", store_string (fun v s => mkStringReply (sr_Result s) (sr_Error s) v)) ].

Definition unmarshal_StringReply (j : JSON) (s : StringReply) : StringReply * option error :=
  Json.decode_struct "StringReply" (first_match StringReply_fields) j s.

Definition store_Results (j : JSON) (s : StringArrayReply) : result StringArrayReply :=
  match Json.decode_slice "Result" IrminString_UnmarshalJSON j with
  | Ok l => Ok (mkStringArrayReply l (sar_Error s) (sar_Version s))
  | Err e => Err e
  end.

Definition StringArrayReply_fields
    : list (string * (JSON -> StringArrayReply -> result StringArrayReply)) :=
  [ ("Result", store_Results);
    ("Error", store_string (fun v s => mkStringArrayReply (sar_Result s) v (sar_Version s)));
    ("Version", store_string (fun v s => mkStringArrayReply (sar_Result s) (sar_Error s) v)) ].

Definition unmarshal_StringArrayReply (j : JSON) (s : StringArrayReply)
    : StringArrayReply * option error :=
  Json.decode_struct "StringArrayReply" (first_match StringArrayReply_fields) j s.

Definition StreamReply_fields : list (string * (JSON -> StreamReply -> result StreamReply)) :=
  [ ("Error", store_string (fun v s => mkStreamReply v (st_Result s)));
    ("Result", fun j s => Ok (mkStreamReply (st_Error s) (Some j))) ].

Definition unmarshal_StreamReply (j : JSON) (s : StreamReply) : StreamReply * option error :=
  Json.decode_struct "StreamReply" (first_match StreamReply_fields) j s.

(** The anonymous structs of [runStreamCommand]:
    [struct { Stream IrminString }] and [struct { Version IrminString }];
    each is its single field. *)
Definition unmarshal_stream_token (j : JSON) (s : IrminString) : IrminString * option error :=
  Json.decode_struct "stream_token" (first_match [("Stream", store_string (fun v _ => v))]) j s.

Definition unmarshal_version (j : JSON) (s : IrminString) : IrminString * option error :=
  Json.decode_struct "version" (first_match [("Version", store_string (fun v _ => v))]) j s.

(** [json.Marshal] of a [Task] and of a [PostRequest], as JSON values: the
    struct tags name the members, and [omitempty] drops a nil [Data]. *)
Definition marshal_IrminString (i : IrminString) : JSON :=
  match IrminString_MarshalJSON i with
  | Ok j => j
  | Err _ => JNull
  end.

Definition marshal_Task (t : Task) : JSON :=
  JObject [ ("date", JString (Date t)); ("uid", JString (Uid t));
            ("owner", marshal_IrminString (Owner t));
            ("messages", JArray (map marshal_IrminString (Messages t))) ].

Definition marshal_PostRequest (p : PostRequest) : JSON :=
  JObject (("task", marshal_Task (post_Task p)) ::
           match post_Data p with
           | Some d => [("params", d)]
           | None => []
           end).

(** ** The world around the package *)

(** How a response body ends after the array elements read so far: with the
    closing bracket, with the end of the input at an element boundary, or
    with bytes from which no further element can be decoded (a syntax error,
    or the input ending inside an element). *)
Inductive Tail : Type := TClose | TEOF | TBad.

(** A response body, as far as the JSON library can make sense of it:
    one complete JSON text; an opening bracket followed by complete elements
    and a [Tail]; bytes with no JSON token at their start; or a body whose
    reading fails.  ([BodyArray l TClose] and [BodyText (JArray l)] are the
    same bytes.  Bodies made of several JSON texts in a row are not
    represented.) *)
Inductive Body : Type :=
| BodyText (j : JSON)
| BodyArray (elems : list JSON) (t : Tail)
| BodyInvalid
| BodyReadError (e : error).

Record Response : Type := mkResponse { resp_Body : Body }.

(** The observable actions of the package, in program order. *)
Inductive Event : Type :=
| EvStdout (text : string)                         (* bytes written to os.Stdout *)
| EvGet (url : string)                             (* http.Get(url) *)
| EvPost (url contentType body : string)           (* http.Post(url, contentType, body) *)
| EvClose.                                         (* res.Body.Close() *)

(** A computation either returns or panics, after some events. *)
Inductive Outcome (A : Type) : Type :=
| Done (a : A)
| Panic (reason : string).
Arguments Done {A} a.
Arguments Panic {A} reason.

Definition IO (A : Type) : Type := list Event * Outcome A.

#[global] Instance IO_ret : MRet IO := fun A a => ([], Done a).

#[global] Instance IO_bind : MBind IO := fun A B k m =>
  match m with
  | (ev, Done a) => let (ev', o) := k a in ((ev ++ ev')%list, o)
  | (ev, Panic r) => (ev, Panic r)
  end.

Definition emit (e : Event) : IO unit := ([e], Done tt).
Definition panic {A : Type} (reason : string) : IO A := ([], Panic reason).
Definition events {A : Type} (m : IO A) : list Event := fst m.
Definition outcome {A : Type} (m : IO A) : Outcome A := snd m.

(** The texts written to standard output, in order. *)
Definition stdout_of (ev : list Event) : list string :=
  omap (fun e => match e with EvStdout text => Some text | _ => None end) ev.

Definition nl : string := String "010" EmptyString.

(** The format ["body %s\n"] of the [Printf] in [runCommand]. *)
Definition body_format : string := Eval cbv in ("body %s" ++ nl).

(** [json.Unmarshal(body, v)] on the bytes of a body. *)
Definition json_Unmarshal {S : Type} (unmarshal : JSON -> S -> S * option error)
    (b : Body) (v : S) : S * option error :=
  match b with
  | BodyText j => unmarshal j v
  | BodyArray l TClose => unmarshal (JArray l) v
  | _ => (v, Some ErrJSONSyntax)
  end.

(** [ioutil.ReadAll(res.Body)]: the error of reading, if any. *)
Definition ReadAll (b : Body) : option error :=
  match b with
  | BodyReadError e => Some e
  | _ => None
  end.

(** *** json.Decoder over a body *)

(** The state of a [json.Decoder] that has read the opening bracket: the
    elements still to come and the tail behind them. *)
Record Decoder : Type := mkDecoder { dec_rest : list JSON; dec_tail : Tail }.

(** [json.NewDecoder(res.Body)] followed by [dec.Token()].  On a JSON text
    that is not an array the first token is read without error and every
    later [Decode] fails. *)
Definition NewDecoder_Token (b : Body) : result Decoder :=
  match b with
  | BodyText (JArray l) => Ok (mkDecoder l TClose)
  | BodyText _ => Ok (mkDecoder [] TBad)
  | BodyArray l t => Ok (mkDecoder l t)
  | BodyInvalid => Err ErrJSONSyntax
  | BodyReadError e => Err e
  end.

(** [dec.More()]: the next byte exists and is not a closing bracket. *)
Definition More (d : Decoder) : bool :=
  match dec_rest d with
  | _ :: _ => true
  | [] => match dec_tail d with TBad => true | _ => false end
  end.

(** [dec.Decode(&v)]: read the next element and decode it into [v]. *)
Definition Decode {S : Type} (unmarshal : JSON -> S -> S * option error)
    (d : Decoder) (v : S) : S * option error * Decoder :=
  match dec_rest d with
  | j :: rest => (unmarshal j v, mkDecoder rest (dec_tail d))
  | [] => (v, Some ErrJSONSyntax, d)
  end.

(** ** The decoding goroutine of runStreamCommand *)

(** One turn of the decoding goroutine's loop
    [for dec.More() { ... ch <- s }], from the decoder and the current
    [stream_token]: either a reply is sent on the channel and the loop goes
    on, or the goroutine returns with the value [err] then has. *)
Inductive Turn : Type :=
| Send (s : StreamReply) (d : Decoder) (stream_token : IrminString)
| Return (err : option error).

Definition turn (d : Decoder) (stream_token : IrminString) : Turn :=
  if negb (More d) then Return None
  else
    let '(s, err, d1) := Decode unmarshal_StreamReply d zero_StreamReply in
    match err with
    | Some e => Return (Some e)
    | None =>
        match st_Result s with
        | None =>
            (* len(s.Result) == 0: the next element is decoded into stream_token *)
            let '(tok, err2, d2) := Decode unmarshal_stream_token d1 stream_token in
            match err2 with
            | Some e => Return (Some e)
            | None =>
                if String.eqb tok "end" then Return None
                else Send s d2 tok
            end
        | Some _ => Send s d1 stream_token
        end
    end.

Definition inspect {A : Type} (a : A) : { b : A | a = b } := exist _ a eq_refl.

(** What the goroutine does when every send goes through: the replies it
    sends on [ch], in order, before it closes [ch], and the value of [err]
    when it returns. *)
Equations decode_loop (d : Decoder) (stream_token : IrminString)
    : list StreamReply * option error by wf (length (dec_rest d)) lt :=
  decode_loop d stream_token with inspect (turn d stream_token) := {
    | exist _ (Send s d' tok') H =>
        let r := decode_loop d' tok' in (s :: fst r, snd r)
    | exist _ (Return err) _ => ([], err) }.
Next Obligation.
  clear decode_loop. revert H. unfold turn, Decode, More.
  destruct d as [rest tl]; simpl.
  destruct rest as [|j rest]; simpl.
  - destruct tl; simpl; discriminate.
  - destruct (unmarshal_StreamReply j zero_StreamReply) as [s0 [e|]]; [discriminate|].
    destruct (st_Result s0).
    + intros [= _ <- _]. simpl. lia.
    + destruct rest as [|j2 rest]; simpl; [discriminate|].
      destruct (unmarshal_stream_token j2 stream_token) as [t0 [e|]]; [discriminate|].
      destruct (String.eqb t0 "end"); [discriminate|].
      intros [= _ <- _]. simpl. lia.
Qed.

(** The control elements of a streamed reply, as the server writes them. *)
Definition control_token (s : string) : JSON := JObject [("stream", JString s)].
Definition version_token (v : string) : JSON := JObject [("version", JString v)].

Definition is_err (err : option error) : bool :=
  match err with
  | Some _ => true
  | None => false
  end.

(** The part of [runStreamCommand] between [json.NewDecoder(res.Body)] and
    [make(chan ...)]: the opening bracket, the start token and the version
    token.  It yields the decoder and [stream_token] the goroutine starts
    from, or the value of [err] at the early [return] (the channel result is
    then nil). *)
Definition stream_header (b : Body) : option (Decoder * IrminString) * option error :=
  match NewDecoder_Token b with                            (* read [ token *)
  | Err e => (None, Some e)
  | Ok dec =>
      let '(stream_token, err, dec1) := Decode unmarshal_stream_token dec "" in
      if (is_err err || negb (String.eqb stream_token "start"))%bool
      then (None, err)                                     (* look for stream start *)
      else
        let '(version, err2, dec2) := Decode unmarshal_version dec1 "" in
        match err2 with
        | Some e => (None, Some e)
        | None => (Some (dec2, stream_token), None)
        end
  end.

(** ** The package, over its collaborators *)

(** The collaborators of [http.go]: Go's standard library and the parts of
    the package declared in other files. *)
Class Env : Type := {
  (** net/url: the type [url.URL] with [url.Parse], [URL.ResolveReference]
      and [URL.String]. *)
  URL : Type;
  url_Parse : string -> result URL;
  ResolveReference : URL -> URL -> URL;
  URL_String : URL -> string;
  (** The path codec, declared outside [http.go]: the type [IrminPath], its
      zero value [IrminPath{}], its methods [URL] and [String], its JSON
      decoding and [ParseEncodedPath]. *)
  IrminPath : Type;
  IrminPath_empty : IrminPath;
  IrminPath_URL : IrminPath -> URL;
  IrminPath_String : IrminPath -> string;
  IrminPath_UnmarshalJSON : JSON -> result IrminPath;
  ParseEncodedPath : string -> result IrminPath;
  (** encoding/json: the bytes that [json.Marshal] writes for a JSON value. *)
  json_text : JSON -> string;
  (** net/http: what the network answers to a request. *)
  http_Get : string -> result Response;
  http_Post : string -> string -> string -> result Response }.

Section Irmin.

Context `{Env}.

Record RestConn : Type := mkRestConn {
  base_uri : URL;
  tree : string;
  taskowner : string }.

(** *** Connections behind pointers *)

(** The store of the [RestConn] values that pointers refer to.  A method
    with a pointer receiver on a location outside the store dereferences a
    nil or dangling pointer: [None]. *)
Local Abbreviation Store := (gmap nat RestConn).

(** [Create]: [new(RestConn)] allocates a zero value, then two fields are
    set. *)
Definition Create (uri : URL) (owner : string) (h : Store) : nat * Store :=
  let r := fresh (dom h) in
  (r, <[r := mkRestConn uri "" owner]> h).

(** [FromTree]: [t := *rest] copies the struct, the copy's tree is set and
    the address of the copy is returned. *)
Definition FromTree (rest : nat) (new_tree : string) (h : Store) : option (nat * Store) :=
  match h !! rest with
  | None => None
  | Some c =>
      let t := mkRestConn (base_uri c) new_tree (taskowner c) in
      let r := fresh (dom h) in
      Some (r, <[r := t]> h)
  end.

Definition Tree (rest : nat) (h : Store) : option string := tree <$> h !! rest.

Definition TaskOwner (rest : nat) (h : Store) : option string := taskowner <$> h !! rest.

(** [SetTaskOwner]: [rest.taskowner = owner] assigns through the pointer. *)
Definition SetTaskOwner (rest : nat) (owner : string) (h : Store) : option Store :=
  match h !! rest with
  | None => None
  | Some c => Some (<[rest := mkRestConn (base_uri c) (tree c) owner]> h)
  end.

(** The methods below only read the receiver: they take the [RestConn] the
    pointer refers to at the time of the call. *)

(** *** MakeCallUrl *)

Definition MakeCallUrl (rest : RestConn) (ct : SubCommandType) (command : string)
    (path : IrminPath) : result URL :=
  let p := IrminPath_URL path in
  let parent : result (string * string) :=
    if (ct =? COMMAND_PLAIN)%Z then Ok ("", "")
    else if (ct =? COMMAND_TREE)%Z then
      if negb (String.eqb (tree rest) "") then Ok ("tree", tree rest) else Ok ("", "")
    else if (ct =? COMMAND_TAG)%Z then Ok ("tag", "")
    else Err (ErrUnknownCommandType ct) in
  match parent with
  | Err e => Err e
  | Ok (parent_command, parent_param) =>
      let parsed :=
        if String.eqb parent_command "" then
          url_Parse (Go.Sprintf "/%s%s" [Go.QueryEscape command; URL_String p])
        else
          url_Parse (Go.Sprintf "/%s/%s/%s/%s%s"
                       [Go.QueryEscape parent_command; Go.QueryEscape parent_param;
                        Go.QueryEscape command; URL_String p]) in
      match parsed with
      | Err e => Err e
      | Ok suffix => Ok (ResolveReference (base_uri rest) suffix)
      end
  end.

(** *** runCommand *)

(** The request of [runCommand] and [runStreamCommand].  In the POST branch
    [j, err := json.Marshal(post)] declares a new [err] for the block, so
    the error of [http.Post] never reaches the function's own [err]: a failed
    POST leaves [res] nil and the next use of [res.Body] panics.
    [json.Marshal] cannot fail on these structs, whose raw message is a
    JSON value here. *)
Definition send (print_body : bool) (uri : URL) (post : option PostRequest)
    : IO (result Response) :=
  match post with
  | None =>
      emit (EvGet (URL_String uri));;
      mret (http_Get (URL_String uri))
  | Some p =>
      let j := json_text (marshal_PostRequest p) in
      (if print_body then emit (EvStdout (Go.Sprintf body_format [j])) else mret tt);;
      emit (EvPost (URL_String uri) "application/json" j);;
      match http_Post (URL_String uri) "application/json" j with
      | Ok res => mret (Ok res)
      | Err _ => panic "invalid memory address or nil pointer dereference"
      end
  end.

(** [runCommand]: the value [v] is decoded into; the result is [v] after
    the call and the returned error. *)
Definition runCommand {S : Type} (unmarshal : JSON -> S -> S * option error)
    (rest : RestConn) (ct : SubCommandType) (command : string) (path : IrminPath)
    (post : option PostRequest) (v : S) : IO (S * option error) :=
  match MakeCallUrl rest ct command path with
  | Err e => mret (v, Some e)
  | Ok uri =>
      r ← send true uri post;
      match r with
      | Err e => mret (v, Some e)
      | Ok res =>
          (* defer res.Body.Close() *)
          let out :=
            match ReadAll (resp_Body res) with
            | Some e => (v, Some e)
            | None => json_Unmarshal unmarshal (resp_Body res) v
            end in
          emit EvClose;;
          mret out
      end
  end.


(** *** The operations on keys *)

Definition Read (rest : RestConn) (path : IrminPath) : IO (string * option error) :=
  '(data, err) ← runCommand unmarshal_StringArrayReply rest COMMAND_TREE "read" path None
                  zero_StringArrayReply;
  mret
    match err with
    | Some e => ("", Some e)
    | None =>
        if negb (String.eqb (IrminString_String (sar_Error data)) "") then
          ("", Some (Errorf (IrminString_String (sar_Error data)) []))
        else if (1 <? length (sar_Result data))%nat then
          ("", Some (Errorf "read %s returned more than one result" [IrminPath_String path]))
        else if (length (sar_Result data) =? 1)%nat then
          (default "" (sar_Result data !! 0%nat), None)
        else
          ("", Some (Errorf "invalid key %s" [IrminPath_String path]))
    end.

Definition ReadString (rest : RestConn) (path : IrminPath) : IO (string * option error) :=
  '(res, err) ← Read rest path;
  mret
    match err with
    | Some e => ("", Some e)
    | None =>
        if Go.utf8_Valid res then (res, None)
        else ("", Some (Errorf "path %s does not contain a valid utf8 string"
                          [IrminPath_String path]))
    end.

(** [contents] is the byte slice behind the (non-nil) pointer. *)
Definition Update (rest : RestConn) (t : Task) (path : IrminPath) (contents : string)
    : IO (string * option error) :=
  match IrminString_MarshalJSON contents with
  | Err e => mret ("", Some e)
  | Ok d =>
      let body := mkPostRequest t (Some d) in
      '(data, err) ← runCommand unmarshal_StringReply rest COMMAND_TREE "update" path
                      (Some body) zero_StringReply;
      mret
        match err with
        | Some e => (IrminString_String (sr_Result data), Some e)
        | None =>
            if negb (String.eqb (IrminString_String (sr_Error data)) "") then
              ("", Some (Errorf (IrminString_String (sr_Error data)) []))
            else if String.eqb (IrminString_String (sr_Result data)) "" then
              ("", Some (Errorf "update seemed to succeed, but didn't return a hash"
                           [IrminPath_String path; IrminString_String (sr_Result data)]))
            else (IrminString_String (sr_Result data), None)
        end
  end.

(** [Remove] and [RemoveRec] differ in the command name only. *)
Definition remove_with (command : string) (rest : RestConn) (t : Task) (path : IrminPath)
    : IO (option error) :=
  let body := mkPostRequest t None in
  '(data, err) ← runCommand unmarshal_StringReply rest COMMAND_TREE command path
                  (Some body) zero_StringReply;
  mret
    match err with
    | Some e => Some e
    | None =>
        if negb (String.eqb (IrminString_String (sr_Error data)) "") then
          Some (Errorf (IrminString_String (sr_Error data)) [])
        else if (1 <? String.length (sr_Result data))%nat then
          Some (Errorf "remove %s returned more than one result" [IrminPath_String path])
        else None
    end.

Definition Remove : RestConn -> Task -> IrminPath -> IO (option error) := remove_with "remove".
Definition RemoveRec : RestConn -> Task -> IrminPath -> IO (option error) :=
  remove_with "remove-rec".

Definition Clone (rest : RestConn) (name : string) (force : bool) : IO (option error) :=
  match ParseEncodedPath (Go.QueryEscape name) with
  | Err e => mret (Some e)
  | Ok path =>
      let command := if force then "clone-force" else "clone" in
      '(data, err) ← runCommand unmarshal_StringReply rest COMMAND_TREE command path None
                      zero_StringReply;
      mret
        match err with
        | Some e => Some e
        | None =>
            if negb (String.eqb (IrminString_String (sr_Error data)) "") then
              Some (Errorf (IrminString_String (sr_Error data)) [])
            else if (1 <? String.length (sr_Result data))%nat then
              Some (Errorf "%s %s returned more than one result" [command; name])
            else if (negb (String.eqb (IrminString_String (sr_Result data)) "ok")
                     || (String.eqb (IrminString_String (sr_Result data)) "" && force))%bool then
              Some (Errorf (IrminString_String (sr_Result data)) [])
            else None
        end
  end.

Definition CompareAndSet (rest : RestConn) (t : Task) (path : IrminPath)
    (oldcontents contents : string) : IO (string * option error) :=
  let post := JArray [JArray [marshal_IrminString oldcontents];
                      JArray [marshal_IrminString contents]] in
  let body := mkPostRequest t (Some post) in
  '(data, err) ← runCommand unmarshal_StringReply rest COMMAND_TREE "compare-and-set" path
                  (Some body) zero_StringReply;
  mret
    match err with
    | Some e => (IrminString_String (sr_Result data), Some e)
    | None =>
        if negb (String.eqb (IrminString_String (sr_Error data)) "") then
          ("", Some (Errorf (IrminString_String (sr_Error data)) []))
        else if String.eqb (IrminString_String (sr_Result data)) "" then
          ("", Some (Errorf "compare-and-set seemed to succeed, but didn't return a hash"
                       [IrminPath_String path; IrminString_String (sr_Result data)]))
        else (IrminString_String (sr_Result data), None)
    end.

(** *** runStreamCommand *)

(** [runStreamCommand].  The channel it returns is given by the replies the
    goroutine sends on it before closing it; the goroutine's last [err] is
    written to a variable nobody reads any more.  Closing the body is the
    business of the goroutines and is modelled in [Module Closing]. *)
Definition runStreamCommand (rest : RestConn) (ct : SubCommandType) (command : string)
    (path : IrminPath) (post : option PostRequest)
    : IO (option (list StreamReply) * option error) :=
  match MakeCallUrl rest ct command path with
  | Err e => mret (None, Some e)
  | Ok uri =>
      r ← send false uri post;
      mret
        match r with
        | Err e => (None, Some e)
        | Ok res =>
            match stream_header (resp_Body res) with
            | (None, err) => (None, err)
            | (Some (dec, stream_token), _) =>
                (Some (fst (decode_loop dec stream_token)), None)
            end
        end
  end.

(** *** Iter *)

(** How the channel [out] of [Iter] ends: closed by the deferred
    [close(out)], or never closed because the goroutine panicked. *)
Inductive Ending : Type :=
| Closed
| Panicked (e : error).

(** [json.Unmarshal(m.Result, &p)] with [p] a fresh [*IrminPath]: [null]
    sets the pointer to nil, an empty message is a syntax error. *)
Definition unmarshal_path (raw : option JSON) : result (option IrminPath) :=
  match raw with
  | None => Err ErrJSONSyntax
  | Some JNull => Ok None
  | Some j =>
      match IrminPath_UnmarshalJSON j with
      | Ok p => Ok (Some p)
      | Err e => Err e
      end
  end.

(** The goroutine of [Iter]: [for m := range ch { ...; out <- p }]. *)
Fixpoint forward (ch : list StreamReply) : list (option IrminPath) * Ending :=
  match ch with
  | [] => ([], Closed)
  | m :: ch' =>
      match unmarshal_path (st_Result m) with
      | Err e => ([], Panicked e)
      | Ok p => let r := forward ch' in (p :: fst r, snd r)
      end
  end.

Definition Iter (rest : RestConn)
    : IO (option (list (option IrminPath) * Ending) * option error) :=
  '(ch, err) ← runStreamCommand rest COMMAND_TREE "iter" IrminPath_empty None;
  mret
    match err, ch with
    | Some e, _ => (None, Some e)
    | None, None => (None, None)
    | None, Some frames => (Some (forward frames), None)
    end.

End Irmin.

(** ** The goroutines of runStreamCommand and the closing of the body *)

(** A small-step model of one streamed call once the response has arrived:
    the function itself (which registers with the wait group before it
    starts anything and deregisters when it returns), the goroutine that
    waits for the group and closes the body, the decoding goroutine, the
    channel of capacity 100 between that goroutine and its consumer, and a
    consumer that receives as long as it has [patience]. *)
Module Closing.







Inductive Action : Type :=
| AHeader        (* main: read the header; on success wg.Add(1) and start the decoder *)
| AReturn        (* main: return, running the deferred wg.Done() *)
| AWake          (* closer: wg.Wait() returns, the counter being zero *)
| AClose         (* closer: res.Body.Close() *)
| ATurn          (* decoder: one turn of the loop up to the send, or leave the loop *)
| ASend          (* decoder: ch <- s, when the buffer has room *)
| ARecv.         (* consumer: receive one reply *)

Definition all_actions : list Action := [AHeader; AReturn; AWake; AClose; ATurn; ASend; ARecv].













End Closing.

(** ** Changing the network, and a sample set of collaborators *)

(** The same collaborators with another answer to GET requests. *)
Definition with_get (E : Env) (get : string -> result Response) : Env :=
  {| URL := @URL E;
     url_Parse := @url_Parse E;
     ResolveReference := @ResolveReference E;
     URL_String := @URL_String E;
     IrminPath := @IrminPath E;
     IrminPath_empty := @IrminPath_empty E;
     IrminPath_URL := @IrminPath_URL E;
     IrminPath_String := @IrminPath_String E;
     IrminPath_UnmarshalJSON := @IrminPath_UnmarshalJSON E;
     ParseEncodedPath := @ParseEncodedPath E;
     json_text := @json_text E;
     http_Get := get;
     http_Post := @http_Post E |}.

(** Collaborators simple enough to evaluate the package on concrete calls:
    URLs are their text; references are rooted paths, resolved against a base
    without a path by appending; [Parse] checks the percent escapes as
    [url.Parse] does for a path; a path is the list of its segments. *)
Module Sample.

Definition is_hex (c : ascii) : bool :=
  (Go.in_range 48 57 c || Go.in_range 65 70 c || Go.in_range 97 102 c)%bool.

Fixpoint valid_escapes (s : string) : bool :=
  match s with
  | EmptyString => true
  | String "%" rest =>
      match rest with
      | String h1 (String h2 rest') => is_hex h1 && is_hex h2 && valid_escapes rest'
      | _ => false
      end
  | String _ rest => valid_escapes rest
  end.

Definition Parse (s : string) : result string :=
  if valid_escapes s then Ok s else Err (ErrURL "invalid URL escape").

Definition path_URL (p : list string) : string :=
  String.concat "" (map (fun seg => "/" ++ Go.QueryEscape seg) p).

Definition path_String (p : list string) : string :=
  String.concat "" (map (fun seg => "/" ++ seg) p).

Definition quote : string := String "034" EmptyString.

Fixpoint text (j : JSON) : string :=
  match j with
  | JNull => "null"
  | JBool true => "true"
  | JBool false => "false"
  | JNumber n => pretty n
  | JString s => quote ++ s ++ quote
  | JArray items => "[" ++ String.concat "," (map text items) ++ "]"
  | JObject members =>
      "{" ++ String.concat "," (map (fun m => quote ++ fst m ++ quote ++ ":" ++ text (snd m))
                                  members) ++ "}"
  end.

Definition env (get : string -> result Response)
    (post : string -> string -> string -> result Response) : Env :=
  {| URL := string;
     url_Parse := Parse;
     ResolveReference := fun base ref => base ++ ref;
     URL_String := fun u => u;
     IrminPath := list string;
     IrminPath_empty := [];
     IrminPath_URL := path_URL;
     IrminPath_String := path_String;
     IrminPath_UnmarshalJSON := Json.decode_slice "IrminPath" IrminString_UnmarshalJSON;
     ParseEncodedPath := fun s => Ok [s];
     json_text := text;
     http_Get := get;
     http_Post := post |}.

(** A server that answers every request with the same body. *)
Definition answering (b : Body) : Env :=
  env (fun _ => Ok (mkResponse b)) (fun _ _ _ => Ok (mkResponse b)).

Definition conn (b : Body) (tree : string) : @RestConn (answering b) :=
  @mkRestConn (answering b) "http://127.0.0.1:8080" tree "owner".

(** A data element of a streamed reply. *)
Definition frame (seg : string) : JSON :=
  JObject [("error", JString ""); ("result", JArray [JString seg])].
Definition reply (seg : string) : StreamReply := mkStreamReply "" (Some (JArray [JString seg])).

(** The envelope of a reply without error. *)
Definition envelope (result : JSON) : Body :=
  BodyText (JObject [("result", result); ("error", JString ""); ("version", JString "1")]).

Definition task : Task := mkTask "1446336000" "0" "owner" ["a message"].

End Sample.

(** ** The rest of the package *)

(** Modelled from the spec: [NewIrminString], declared outside [http.go];
    the string viewed as the bytes of a value. *)
Definition NewIrminString (s : string) : IrminString := s.

Record BoolReply : Type := mkBoolReply {
  br_Result : bool;
  br_Error : IrminString;
  br_Version : IrminString }.

Definition zero_BoolReply : BoolReply := mkBoolReply false "" "".

(** A [bool] field takes [true] and [false], is left alone by [null] and
    refuses every other value.  (After such a type error the library goes on
    with the members that follow; [Mem] and [List] drop the struct as soon as
    an error is returned, so the struct after an error is taken as it stood
    at the error.) *)
Definition store_bool (j : JSON) (s : BoolReply) : result BoolReply :=
  match j with
  | JBool b => Ok (mkBoolReply b (br_Error s) (br_Version s))
  | JNull => Ok s
  | _ => Err (ErrJSONType "Result")
  end.

Definition BoolReply_fields : list (string * (JSON -> BoolReply -> result BoolReply)) :=
  [ ("Result", store_bool);
    ("Error", store_string (fun v s => mkBoolReply (br_Result s) v (br_Version s)));
    ("Version", store_string (fun v s => mkBoolReply (br_Result s) (br_Error s) v)) ].

Definition unmarshal_BoolReply (j : JSON) (s : BoolReply) : BoolReply * option error :=
  Json.decode_struct "BoolReply" (first_match BoolReply_fields) j s.



(** The number of calls of [res.Body.Close()] among some events. *)
Definition closes_of (ev : list Event) : nat :=
  length (List.filter (fun e => match e with EvClose => true | _ => false end) ev).

(** The requests among some events. *)
Definition gets_of (ev : list Event) : list string :=
  omap (fun e => match e with EvGet url => Some url | _ => None end) ev.

Definition posts_of (ev : list Event) : list string :=
  omap (fun e => match e with EvPost url _ _ => Some url | _ => None end) ev.

Section IrminRest.

Context `{Env}.

Record PathArrayReply : Type := mkPathArrayReply {
  par_Result : list IrminPath;
  par_Error : IrminString;
  par_Version : IrminString }.

Definition zero_PathArrayReply : PathArrayReply := mkPathArrayReply [] "" "".

Definition store_Paths (j : JSON) (s : PathArrayReply) : result PathArrayReply :=
  match Json.decode_slice "Result" IrminPath_UnmarshalJSON j with
  | Ok l => Ok (mkPathArrayReply l (par_Error s) (par_Version s))
  | Err e => Err e
  end.

Definition PathArrayReply_fields
    : list (string * (JSON -> PathArrayReply -> result PathArrayReply)) :=
  [ ("Result", store_Paths);
    ("Error", store_string (fun v s => mkPathArrayReply (par_Result s) v (par_Version s)));
    ("Version", store_string (fun v s => mkPathArrayReply (par_Result s) (par_Error s) v)) ].

Definition unmarshal_PathArrayReply (j : JSON) (s : PathArrayReply)
    : PathArrayReply * option error :=
  Json.decode_struct "PathArrayReply" (first_match PathArrayReply_fields) j s.

(** [NewTask], with [now] the value of [time.Now().Unix()];
    [fmt.Sprintf("%d", now)] is the decimal numeral of [now]. *)
Definition NewTask (rest : RestConn) (message : string) (now : Z) : Task :=
  mkTask (pretty now) "0" (NewIrminString (taskowner rest)) [NewIrminString message].

(** [NewTask] through a pointer into the store. *)
Definition NewTask_at (rest : nat) (message : string) (now : Z) (h : gmap nat RestConn)
    : option Task :=
  (fun c => NewTask c message now) <$> h !! rest.

Definition AvailableCommands (rest : RestConn) : IO (list string * option error) :=
  '(data, err) ← runCommand unmarshal_StringArrayReply rest COMMAND_TREE "" IrminPath_empty None
                  zero_StringArrayReply;
  mret
    match err with
    | Some e => ([], Some e)
    | None =>
        if negb (String.eqb (IrminString_String (sar_Error data)) "") then
          ([], Some (Errorf (IrminString_String (sar_Error data)) []))
        else (map IrminString_String (sar_Result data), None)
    end.

Definition Version (rest : RestConn) : IO (string * option error) :=
  '(data, err) ← runCommand unmarshal_StringArrayReply rest COMMAND_TREE "" IrminPath_empty None
                  zero_StringArrayReply;
  mret
    match err with
    | Some e => ("", Some e)
    | None =>
        if negb (String.eqb (IrminString_String (sar_Error data)) "") then
          ("", Some (Errorf (IrminString_String (sar_Error data)) []))
        else (IrminString_String (sar_Version data), None)
    end.

Definition List (rest : RestConn) (path : IrminPath) : IO (list IrminPath * option error) :=
  '(data, err) ← runCommand unmarshal_PathArrayReply rest COMMAND_TREE "list" path None
                  zero_PathArrayReply;
  mret
    match err with
    | Some e => ([], Some e)
    | None =>
        if negb (String.eqb (IrminString_String (par_Error data)) "") then
          ([], Some (Errorf (IrminString_String (par_Error data)) []))
        else (par_Result data, None)
    end.

Definition Mem (rest : RestConn) (path : IrminPath) : IO (bool * option error) :=
  '(data, err) ← runCommand unmarshal_BoolReply rest COMMAND_TREE "mem" path None
                  zero_BoolReply;
  mret
    match err with
    | Some e => (false, Some e)
    | None =>
        if negb (String.eqb (IrminString_String (br_Error data)) "") then
          (false, Some (Errorf (IrminString_String (br_Error data)) []))
        else (br_Result data, None)
    end.

(** The format ["%s=%s\n"] of the [Printf] in the example program. *)
Definition line_format : string := Eval cbv in ("%s=%s" ++ nl).

(** The loop of the example program's [main],
    [for path := range ch { ... }], which reads the key behind each pointer
    with [ReadString] and prints it with its value, over the
    pointers that the channel delivers before it is closed.  The result is
    [None] when the loop runs to the end of the channel and [Some err] when
    it ends in [panic(err)]; a nil pointer makes [*path] panic. *)
Fixpoint main_loop (r : RestConn) (received : list (option IrminPath)) : IO (option error) :=
  match received with
  | [] => mret None
  | None :: _ => panic "invalid memory address or nil pointer dereference"
  | Some path :: rest =>
      '(d, err) ← ReadString r path;
      match err with
      | Some e => mret (Some e)
      | None =>
          emit (EvStdout (Go.Sprintf line_format [IrminPath_String path; d]));;
          main_loop r rest
      end
  end.

End IrminRest.

(** A server that answers the GET of each listed URL with the body listed
    for it, refuses every other GET and every POST. *)
Module Routes.

Definition refused : error := ErrTransport "connection refused".

Definition get (routes : list (string * Body)) (url : string) : result Response :=
  match List.find (fun route => String.eqb (fst route) url) routes with
  | Some route => Ok (mkResponse (snd route))
  | None => Err refused
  end.

Definition env (routes : list (string * Body)) : Env :=
  Sample.env (get routes) (fun _ _ _ => Err refused).

Definition conn (routes : list (string * Body)) (tree : string) : @RestConn (env routes) :=
  @mkRestConn (env routes) "http://127.0.0.1:8080" tree "owner".

End Routes.

(** The same collaborators with another [url.Parse]. *)
Definition with_parse (E : Env) (parse : string -> result (@URL E)) : Env :=
  {| URL := @URL E;
     url_Parse := parse;
     ResolveReference := @ResolveReference E;
     URL_String := @URL_String E;
     IrminPath := @IrminPath E;
     IrminPath_empty := @IrminPath_empty E;
     IrminPath_URL := @IrminPath_URL E;
     IrminPath_String := @IrminPath_String E;
     IrminPath_UnmarshalJSON := @IrminPath_UnmarshalJSON E;
     ParseEncodedPath := @ParseEncodedPath E;
     json_text := @json_text E;
     http_Get := @http_Get E;
     http_Post := @http_Post E |}.



(** * Properties *)

(** ** The library models on the formats and inputs of the package *)

Example Sprintf_plain : Go.Sprintf "/%s%s" ["read"; "/a/b"] = "/read/a/b".
Proof. reflexivity. Qed.

Example Sprintf_missing : Go.Sprintf "<%s%s>" ["x"] = "<x%!s(MISSING)>".
Proof. reflexivity. Qed.

Example Sprintf_extra :
  Go.Sprintf "no verb" ["p"; ""] = "no verb%!(EXTRA string=p, string=)".
Proof. reflexivity. Qed.

Example QueryEscape_ex : Go.QueryEscape "a b/c~" = "a+b%2Fc~".
Proof. reflexivity. Qed.

Example utf8_Valid_AB : Go.utf8_Valid "AB" = true.
Proof. reflexivity. Qed.

Example utf8_Valid_bad : Go.utf8_Valid (String "255" "") = false.
Proof. reflexivity. Qed.

Lemma append_empty_r (a : string) : a ++ "" = a.
Proof.
  induction a as [|x a IH]; [reflexivity|].
  change (String x (a ++ "") = String x a). now rewrite IH.
Qed.

(** The format of the tree and tag branch of [MakeCallUrl] has five verbs
    and is given four operands. *)
Lemma Sprintf_parent_format (a b c d : string) :
  Go.Sprintf "/%s/%s/%s/%s%s" [a; b; c; d]
  = "/" ++ a ++ "/" ++ b ++ "/" ++ c ++ "/" ++ d ++ "%!s(MISSING)".
Proof.
  unfold Go.Sprintf. cbn.
  rewrite ?append_empty_r. reflexivity.
Qed.

Lemma Sprintf_plain_format (a b : string) : Go.Sprintf "/%s%s" [a; b] = "/" ++ a ++ b.
Proof.
  unfold Go.Sprintf. cbn.
  rewrite ?append_empty_r. reflexivity.
Qed.

Lemma Sprintf_body_format (j : string) : Go.Sprintf body_format [j] = "body " ++ j ++ nl.
Proof.
  unfold Go.Sprintf, body_format. cbn.
  rewrite ?append_empty_r. reflexivity.
Qed.

(** ** The monad of events *)

Lemma bind_Done {A B : Type} (ev : list Event) (a : A) (k : A -> IO B) :
  ((ev, Done a) ≫= k) = ((ev ++ fst (k a))%list, snd (k a)).
Proof. unfold mbind, IO_bind. destruct (k a); reflexivity. Qed.

Lemma bind_Panic {A B : Type} (ev : list Event) (r : string) (k : A -> IO B) :
  (((ev, Panic r) : IO A) ≫= k) = (ev, Panic r).
Proof. reflexivity. Qed.

Lemma bind_events_prefix {A B : Type} (m : IO A) (k : A -> IO B) :
  exists tail, events (m ≫= k) = (events m ++ tail)%list.
Proof.
  destruct m as [ev [a|r]].
  - rewrite bind_Done. eexists. reflexivity.
  - exists []. simpl. now rewrite app_nil_r.
Qed.

Section Operations.

Context `{Env}.

Ltac run_reply Hrun :=
  rewrite Hrun, bind_Done; cbn [fst snd];
  unfold mret, IO_ret; cbn [fst snd]; rewrite app_nil_r.

Lemma length_le_1_not_ok (r : string) :
  (1 <? String.length r)%nat = false -> String.eqb r "ok" = false.
Proof.
  intros Hlen. destruct (String.eqb_spec r "ok") as [->|]; [|reflexivity].
  discriminate Hlen.
Qed.

(** C1 (clone). On an error-free reply [Clone] compares the byte length of the
    result with 1 before it compares the result with "ok": a reply
    [result="ok"] fails with "... returned more than one result"; with
    [force] a reply [result=""] fails with an empty message; and no reply at
    all makes [Clone] return nil. *)
Theorem Clone_ok_reply_fails (rest : RestConn) (name : string) (force : bool)
    (path : IrminPath) (ev : list Event) (data : StringReply) :
  ParseEncodedPath (Go.QueryEscape name) = Ok path ->
  runCommand unmarshal_StringReply rest COMMAND_TREE
    (if force then "clone-force" else "clone") path None zero_StringReply
    = (ev, Done (data, None)) ->
  sr_Error data = "" ->
  (sr_Result data = "ok" ->
     Clone rest name force
     = (ev, Done (Some (Errorf "%s %s returned more than one result"
                          [if force then "clone-force" else "clone"; name]))))
  /\ (sr_Result data = "" -> force = true ->
        Clone rest name force = (ev, Done (Some (Errorf "" []))))
  /\ outcome (Clone rest name force) <> Done None.
Proof.
  intros Hpath Hrun Herr. unfold Clone. rewrite Hpath.
  run_reply Hrun. unfold IrminString_String. rewrite Herr. cbn [String.eqb negb].
  split; [|split].
  - intros ->. reflexivity.
  - intros -> ->. reflexivity.
  - unfold outcome. cbn [snd].
    destruct (1 <? String.length (sr_Result data))%nat eqn:Hlen; [discriminate|].
    rewrite (length_le_1_not_ok _ Hlen). cbn [negb orb]. discriminate.
Qed.

(** Whatever the server answers, [Clone] does not return nil. *)
Lemma Clone_never_succeeds (rest : RestConn) (name : string) (force : bool) :
  outcome (Clone rest name force) <> Done None.
Proof.
  unfold Clone. destruct (ParseEncodedPath (Go.QueryEscape name)) as [path|e]; [|discriminate].
  destruct (runCommand unmarshal_StringReply rest COMMAND_TREE
              (if force then "clone-force" else "clone") path None zero_StringReply)
    as [ev [[data err]|r]].
  - rewrite bind_Done. unfold outcome, mret, IO_ret. cbn [fst snd].
    destruct err as [e|]; [discriminate|].
    destruct (negb (String.eqb (IrminString_String (sr_Error data)) "")); [discriminate|].
    destruct (1 <? String.length (sr_Result data))%nat eqn:Hlen; [discriminate|].
    unfold IrminString_String. rewrite (length_le_1_not_ok _ Hlen). discriminate.
  - rewrite bind_Panic. discriminate.
Qed.

(** C6 (read). On an error-free reply: no result is the error
    "invalid key", two or more results are the error "returned more than one
    result", one result is returned as it is; [ReadString] returns that
    result as a string exactly when it is valid UTF-8 and an encoding error
    otherwise. *)
Theorem Read_results (rest : RestConn) (path : IrminPath) (ev : list Event)
    (data : StringArrayReply) :
  runCommand unmarshal_StringArrayReply rest COMMAND_TREE "read" path None
    zero_StringArrayReply = (ev, Done (data, None)) ->
  sar_Error data = "" ->
  (sar_Result data = [] ->
     Read rest path = (ev, Done ("", Some (Errorf "invalid key %s" [IrminPath_String path])))
     /\ ReadString rest path
        = (ev, Done ("", Some (Errorf "invalid key %s" [IrminPath_String path]))))
  /\ ((2 <= length (sar_Result data))%nat ->
        Read rest path
        = (ev, Done ("", Some (Errorf "read %s returned more than one result"
                                 [IrminPath_String path])))
        /\ ReadString rest path
           = (ev, Done ("", Some (Errorf "read %s returned more than one result"
                                    [IrminPath_String path]))))
  /\ (forall v, sar_Result data = [v] ->
        Read rest path = (ev, Done (v, None))
        /\ (Go.utf8_Valid v = true -> ReadString rest path = (ev, Done (v, None)))
        /\ (Go.utf8_Valid v = false ->
              ReadString rest path
              = (ev, Done ("", Some (Errorf "path %s does not contain a valid utf8 string"
                                       [IrminPath_String path]))))).
Proof.
  intros Hrun Herr.
  assert (HRead : Read rest path
    = (ev, Done (if (1 <? length (sar_Result data))%nat
                 then ("", Some (Errorf "read %s returned more than one result"
                                   [IrminPath_String path]))
                 else if (length (sar_Result data) =? 1)%nat
                      then (default "" (sar_Result data !! 0%nat), None)
                      else ("", Some (Errorf "invalid key %s" [IrminPath_String path]))))).
  { unfold Read. run_reply Hrun. unfold IrminString_String. rewrite Herr. reflexivity. }
  assert (HRS : forall r, Read rest path = (ev, Done r) ->
            ReadString rest path
            = (ev, Done match snd r with
                        | Some e => ("", Some e)
                        | None =>
                            if Go.utf8_Valid (fst r) then (fst r, None)
                            else ("", Some (Errorf "path %s does not contain a valid utf8 string"
                                              [IrminPath_String path]))
                        end)).
  { intros [res err] Hr. unfold ReadString. run_reply Hr. reflexivity. }
  split; [|split].
  - intros Hnil. rewrite Hnil in HRead. cbn in HRead.
    split; [exact HRead|]. rewrite (HRS _ HRead). reflexivity.
  - intros Hlen.
    destruct (Nat.ltb_spec 1 (length (sar_Result data))) as [_|Hno]; [|lia].
    split; [exact HRead|]. rewrite (HRS _ HRead). reflexivity.
  - intros v Hone. rewrite Hone in HRead. cbn in HRead.
    split; [exact HRead|].
    split; intros Hv; rewrite (HRS _ HRead); cbn [fst snd]; rewrite Hv; reflexivity.
Qed.


End Operations.

(** *** The operations on a sample server *)

Lemma Clone_ok_reply_fails_witness :
  let rest := Sample.conn (Sample.envelope (JString "ok")) "" in
  let ev := [EvGet "http://127.0.0.1:8080/clone/x"; EvClose] in
  let data := mkStringReply "ok" "" "1" in
  @ParseEncodedPath (Sample.answering (Sample.envelope (JString "ok"))) (Go.QueryEscape "x")
  = Ok ["x"]
  /\ runCommand unmarshal_StringReply rest COMMAND_TREE "clone" ["x"] None zero_StringReply
     = (ev, Done (data, None))
  /\ Clone rest "x" false
     = (ev, Done (Some (Errorf "%s %s returned more than one result" ["clone"; "x"]))).
Proof.
  intros rest ev data.
  split; [reflexivity|]. split; [reflexivity|].
  apply (Clone_ok_reply_fails rest "x" false ["x"] ev data); reflexivity.
Defined.

Example Clone_force_empty_reply_fails :
  Clone (Sample.conn (Sample.envelope (JString "")) "") "x" true
  = ([EvGet "http://127.0.0.1:8080/clone-force/x"; EvClose], Done (Some (Errorf "" []))).
Proof. reflexivity. Qed.

Lemma Read_results_witness :
  let rest := Sample.conn (Sample.envelope (JArray [JArray [JNumber 65; JNumber 66]])) "" in
  let ev := [EvGet "http://127.0.0.1:8080/read/a"; EvClose] in
  let data := mkStringArrayReply ["AB"] "" "1" in
  runCommand unmarshal_StringArrayReply rest COMMAND_TREE "read" ["a"] None
    zero_StringArrayReply = (ev, Done (data, None))
  /\ Read rest ["a"] = (ev, Done ("AB", None))
  /\ ReadString rest ["a"] = (ev, Done ("AB", None)).
Proof.
  intros rest ev data.
  split; [reflexivity|].
  destruct (Read_results rest ["a"] ev data) as (_ & _ & Hone); [reflexivity..|].
  destruct (Hone "AB") as (Hread & Hvalid & _); [reflexivity|].
  split; [exact Hread | apply Hvalid; reflexivity].
Defined.

Example Read_no_result :
  outcome (Read (Sample.conn (Sample.envelope (JArray [])) "") ["a"])
  = Done ("", Some (Errorf "invalid key %s" ["/a"])).
Proof. reflexivity. Qed.

Example Read_two_results :
  outcome (Read (Sample.conn (Sample.envelope (JArray [JString "x"; JString "y"])) "") ["a"])
  = Done ("", Some (Errorf "read %s returned more than one result" ["/a"])).
Proof. reflexivity. Qed.

Example ReadString_not_utf8 :
  outcome (ReadString (Sample.conn (Sample.envelope (JArray [JArray [JNumber 255]])) "") ["a"])
  = Done ("", Some (Errorf "path %s does not contain a valid utf8 string" ["/a"])).
Proof. reflexivity. Qed.


Example Update_empty_hash :
  outcome (Update (Sample.conn (Sample.envelope (JString "")) "") Sample.task ["a"] "new")
  = Done ("", Some (Errorf "update seemed to succeed, but didn't return a hash" ["/a"; ""])).
Proof. reflexivity. Qed.

Section Requests.

Context `{Env}.

Lemma events_bind_pure {A B : Type} (m : IO A) (k : A -> IO B) :
  (forall a, events (k a) = []) -> events (m ≫= k) = events m.
Proof.
  intros Hk. destruct m as [ev [a|r]]; [|reflexivity].
  rewrite bind_Done. unfold events in *. cbn [fst]. rewrite Hk. apply app_nil_r.
Qed.

(** The string that the tree branch hands to [url.Parse] ends in the text
    that [Sprintf] prints for the fifth verb, which has no operand. *)
Lemma MakeCallUrl_tree (rest : RestConn) (command : string) (path : IrminPath) :
  tree rest <> "" ->
  MakeCallUrl rest COMMAND_TREE command path
  = match url_Parse ("/tree/" ++ Go.QueryEscape (tree rest) ++ "/" ++ Go.QueryEscape command
                     ++ "/" ++ URL_String (IrminPath_URL path) ++ "%!s(MISSING)") with
    | Err e => Err e
    | Ok suffix => Ok (ResolveReference (base_uri rest) suffix)
    end.
Proof.
  intros Htree. unfold MakeCallUrl.
  destruct (String.eqb_spec (tree rest) "") as [Heq|_]; [contradiction|].
  cbn -[Go.Sprintf Go.QueryEscape]. rewrite Sprintf_parent_format. reflexivity.
Qed.

(** C2 (URL of a tree command). With the tree selector "foo" the builder does
    not parse base-relative "/tree/foo/" + escape(C) + suffix(P): the format
    has a slash and a verb too many, so the text it parses is
    "/tree/foo/" + escape(C) + "/" + suffix(P) + "%!s(MISSING)", and its result
    is whatever [url.Parse] makes of that text. *)
Theorem MakeCallUrl_tree_foo (base : URL) (owner command : string) (path : IrminPath) :
  MakeCallUrl (mkRestConn base "foo" owner) COMMAND_TREE command path
  = match url_Parse ("/tree/foo/" ++ Go.QueryEscape command ++ "/"
                     ++ URL_String (IrminPath_URL path) ++ "%!s(MISSING)") with
    | Err e => Err e
    | Ok suffix => Ok (ResolveReference base suffix)
    end.
Proof. rewrite MakeCallUrl_tree; [reflexivity | discriminate]. Qed.





End Requests.

Example MakeCallUrl_tree_foo_sample :
  MakeCallUrl (Sample.conn BodyInvalid "foo") COMMAND_TREE "read" ["a"]
  = Err (ErrURL "invalid URL escape").
Proof. reflexivity. Qed.

Example MakeCallUrl_no_tree_sample :
  MakeCallUrl (Sample.conn BodyInvalid "") COMMAND_TREE "read" ["a"; "b c"]
  = Ok "http://127.0.0.1:8080/read/a/b+c".
Proof. reflexivity. Qed.

Example Update_prints_its_body :
  let j := Sample.text (marshal_PostRequest (mkPostRequest Sample.task (Some (JString "new")))) in
  events (Update (Sample.conn (Sample.envelope (JString "h4sh")) "") Sample.task ["a"] "new")
  = [EvStdout ("body " ++ j ++ nl);
     EvPost "http://127.0.0.1:8080/update/a" "application/json" j;
     EvClose].
Proof. vm_compute. reflexivity. Qed.

(** ** Connections behind pointers *)

Section Connections.

Context `{Env}.

(** C8, as the code has it. [FromTree] allocates a new connection that
    differs from the original in the tree only, and leaves every connection
    of the store, the original included, as it was.  [SetTaskOwner] allocates
    nothing: it overwrites the task owner of the connection it is called on,
    keeping its base and tree, and leaves every other connection as it
    was. *)
Theorem FromTree_copies_SetTaskOwner_overwrites (h : gmap nat RestConn) (rest : nat)
    (c : RestConn) (new_tree owner : string) :
  h !! rest = Some c ->
  (exists r h',
     FromTree rest new_tree h = Some (r, h')
     /\ h !! r = None
     /\ h' !! r = Some (mkRestConn (base_uri c) new_tree (taskowner c))
     /\ (forall l x, h !! l = Some x -> h' !! l = Some x))
  /\ (exists h',
        SetTaskOwner rest owner h = Some h'
        /\ h' !! rest = Some (mkRestConn (base_uri c) (tree c) owner)
        /\ dom h' = dom h
        /\ (forall l, l <> rest -> h' !! l = h !! l)).
Proof.
  intros Hc. split.
  - unfold FromTree. rewrite Hc.
    set (r := fresh (dom h)).
    assert (Hfresh : h !! r = None).
    { apply not_elem_of_dom. apply is_fresh. }
    eexists r, _. split; [reflexivity|].
    split; [exact Hfresh|]. split; [apply lookup_insert_eq|].
    intros l x Hl. rewrite lookup_insert_ne; [exact Hl|].
    intros <-. congruence.
  - unfold SetTaskOwner. rewrite Hc.
    eexists. split; [reflexivity|].
    split; [apply lookup_insert_eq|].
    split.
    + apply dom_insert_lookup_L. eauto.
    + intros l Hl. apply lookup_insert_ne. congruence.
Qed.

End Connections.

(** C8, as stated, fails for the task owner: after [SetTaskOwner] the one
    connection of the store has another task owner, and no connection was
    added. *)
Lemma SetTaskOwner_changes_the_original :
  let E := Sample.answering BodyInvalid in
  let created := Create (H := E) "http://127.0.0.1:8080" "alice" ∅ in
  let r := fst created in
  let h := snd created in
  exists h',
    SetTaskOwner r "bob" h = Some h'
    /\ TaskOwner r h = Some "alice"
    /\ TaskOwner r h' = Some "bob"
    /\ dom h' = dom h.
Proof.
  intros E created r h. eexists. split; [reflexivity|].
  split; [reflexivity|]. split; [reflexivity|].
  vm_compute. reflexivity.
Qed.

Lemma FromTree_copies_SetTaskOwner_overwrites_witness :
  let E := Sample.answering BodyInvalid in
  let c := mkRestConn (H := E) "http://127.0.0.1:8080" "" "alice" in
  let h : gmap nat RestConn := {[ 0%nat := c ]} in
  h !! 0%nat = Some c
  /\ (exists r h',
        FromTree 0%nat "foo" h = Some (r, h')
        /\ h' !! r = Some (mkRestConn (H := E) "http://127.0.0.1:8080" "foo" "alice")
        /\ h' !! 0%nat = Some c)
  /\ (exists h',
        SetTaskOwner 0%nat "bob" h = Some h'
        /\ h' !! 0%nat = Some (mkRestConn (H := E) "http://127.0.0.1:8080" "" "bob")).
Proof.
  intros E c h.
  assert (Hc : h !! 0%nat = Some c) by reflexivity.
  split; [exact Hc|].
  destruct (FromTree_copies_SetTaskOwner_overwrites h 0%nat c "foo" "bob" Hc)
    as [(r & h' & Hft & _ & Hr & Hkeep) (h'' & Hset & Howner & _)].
  split.
  - exists r, h'. split; [exact Hft|]. split; [exact Hr | apply Hkeep; exact Hc].
  - exists h''. split; [exact Hset | exact Howner].
Defined.

(** ** Streams *)

Lemma decode_loop_eq (d : Decoder) (tok : IrminString) :
  decode_loop d tok
  = match turn d tok with
    | Send s d' tok' => let r := decode_loop d' tok' in (s :: fst r, snd r)
    | Return err => ([], err)
    end.
Proof.
  rewrite decode_loop_equation_1. unfold inspect. cbn.
  destruct (turn d tok); reflexivity.
Qed.

Lemma unmarshal_StreamReply_end :
  unmarshal_StreamReply (control_token "end") zero_StreamReply = (zero_StreamReply, None).
Proof. reflexivity. Qed.

Lemma unmarshal_stream_token_end (tok : IrminString) :
  unmarshal_stream_token (control_token "end") tok = ("end", None).
Proof. reflexivity. Qed.

(** The replies sent do not depend on how the body ends: a stream closed by
    the end token and the bracket, a stream cut off after the same elements,
    and a stream followed by bytes that do not decode all give the same
    replies. *)
Lemma decode_loop_cut (l : list JSON) (tok : IrminString) :
  fst (decode_loop (mkDecoder l TEOF) tok)
  = fst (decode_loop (mkDecoder (l ++ [control_token "end"]) TClose) tok)
  /\ fst (decode_loop (mkDecoder l TBad) tok)
     = fst (decode_loop (mkDecoder (l ++ [control_token "end"]) TClose) tok).
Proof.
  remember (length l) as n eqn:Hn. revert l tok Hn.
  induction n as [n IH] using lt_wf_ind. intros l tok Hn.
  rewrite !(decode_loop_eq (mkDecoder l _)),
          (decode_loop_eq (mkDecoder (l ++ _) _)).
  unfold turn, More, Decode. cbn [dec_rest dec_tail].
  destruct l as [|j l]; cbn [app negb].
  - rewrite unmarshal_StreamReply_end. cbn. split; reflexivity.
  - destruct (unmarshal_StreamReply j zero_StreamReply) as [s [e|]]; [split; reflexivity|].
    destruct (st_Result s) as [raw|].
    + cbn [fst snd]. cbn in Hn.
      destruct (IH (length l) ltac:(lia) l tok eq_refl) as [H1 H2].
      rewrite H1, H2. split; reflexivity.
    + destruct l as [|j2 l]; cbn [app dec_rest dec_tail].
      * rewrite unmarshal_stream_token_end. cbn. split; reflexivity.
      * destruct (unmarshal_stream_token j2 tok) as [tok' [e|]]; [split; reflexivity|].
        destruct (String.eqb tok' "end"); [split; reflexivity|].
        cbn [fst snd]. cbn in Hn.
        destruct (IH (length l) ltac:(lia) l tok' eq_refl) as [H1 H2].
        rewrite H1, H2. split; reflexivity.
Qed.

Lemma stream_header_ok (v : string) (frames : list JSON) (t : Tail) :
  stream_header (BodyArray (control_token "start" :: version_token v :: frames) t)
  = (Some (mkDecoder frames t, "start"), None).
Proof. reflexivity. Qed.

Section Streams.

Context `{Env}.

Lemma runStreamCommand_answered (rest : RestConn) (ct : SubCommandType) (command : string)
    (path : IrminPath) (post : option PostRequest) (uri : URL) (ev : list Event)
    (res : Response) :
  MakeCallUrl rest ct command path = Ok uri ->
  send false uri post = (ev, Done (Ok res)) ->
  runStreamCommand rest ct command path post
  = (ev, Done match stream_header (resp_Body res) with
              | (None, err) => (None, err)
              | (Some (dec, tok), _) => (Some (fst (decode_loop dec tok)), None)
              end).
Proof.
  intros Hurl Hsend. unfold runStreamCommand. rewrite Hurl, Hsend, bind_Done.
  cbn [fst snd mret IO_ret]. rewrite app_nil_r. reflexivity.
Qed.

Lemma Iter_of_stream (rest : RestConn) (ev : list Event)
    (ch : option (list StreamReply)) (err : option error) :
  runStreamCommand rest COMMAND_TREE "iter" IrminPath_empty None = (ev, Done (ch, err)) ->
  Iter rest
  = (ev, Done match err, ch with
              | Some e, _ => (None, Some e)
              | None, None => (None, None)
              | None, Some frames => (Some (forward frames), None)
              end).
Proof.
  intros Hrun. unfold Iter. rewrite Hrun, bind_Done.
  cbn [fst snd mret IO_ret]. rewrite app_nil_r. reflexivity.
Qed.

(** C3, as the code has it. Once the opening bracket is read: when the
    start token cannot be decoded (it is missing or malformed) the call
    returns that error and no channel; when an element is decoded there but
    does not carry the value "start", the call returns no channel and a nil
    error, which [Iter] hands on as it is.  In no case is a channel
    returned. *)
Theorem stream_start_token (rest : RestConn) (ct : SubCommandType) (command : string)
    (path : IrminPath) (post : option PostRequest) (uri : URL) (ev : list Event)
    (res : Response) (d : Decoder) :
  MakeCallUrl rest ct command path = Ok uri ->
  send false uri post = (ev, Done (Ok res)) ->
  NewDecoder_Token (resp_Body res) = Ok d ->
  let first := fst (Decode unmarshal_stream_token d "") in
  (forall e, snd first = Some e ->
     runStreamCommand rest ct command path post = (ev, Done (None, Some e)))
  /\ (dec_rest d = [] ->
        runStreamCommand rest ct command path post = (ev, Done (None, Some ErrJSONSyntax)))
  /\ (snd first = None -> fst first <> "start" ->
        runStreamCommand rest ct command path post = (ev, Done (None, None)))
  /\ (forall ev' err,
        runStreamCommand rest COMMAND_TREE "iter" IrminPath_empty None
        = (ev', Done (None, err)) ->
        Iter rest = (ev', Done (None, err))).
Proof.
  intros Hurl Hsend Hdec first.
  rewrite (runStreamCommand_answered _ _ _ _ _ _ _ _ Hurl Hsend).
  unfold stream_header. rewrite Hdec. subst first.
  repeat split.
  - intros e He. destruct (Decode unmarshal_stream_token d "") as [[tok err] d1].
    cbn [fst snd] in He. subst err. reflexivity.
  - intros Hrest. unfold Decode. rewrite Hrest. reflexivity.
  - intros Hnone Hne. destruct (Decode unmarshal_stream_token d "") as [[tok err] d1].
    cbn [fst snd] in Hnone, Hne. subst err.
    destruct (String.eqb_spec tok "start") as [Heq|_]; [contradiction|]. reflexivity.
  - intros ev' err Hrun. rewrite (Iter_of_stream _ _ _ _ Hrun). destruct err; reflexivity.
Qed.

(** C5. A stream cut off after its header and any number of elements, at
    an element boundary or by bytes that do not decode, makes the call return
    a channel and a nil error, and the channel carries exactly the replies
    that the same stream closed by the end token carries, followed by the
    same close: the consumer, of the channel or of [Iter], is shown nothing
    that tells the cut stream from the complete one. *)
Theorem cut_stream_looks_complete (rest : RestConn) (ct : SubCommandType) (command : string)
    (path : IrminPath) (post : option PostRequest) (uri : URL) (ev : list Event)
    (res : Response) (v : string) (frames : list JSON) :
  MakeCallUrl rest ct command path = Ok uri ->
  send false uri post = (ev, Done (Ok res)) ->
  let header := [control_token "start"; version_token v] in
  let complete :=
    fst (decode_loop (mkDecoder (frames ++ [control_token "end"]) TClose) "start") in
  resp_Body res = BodyArray (header ++ frames) TEOF
  \/ resp_Body res = BodyArray (header ++ frames) TBad
  \/ resp_Body res = BodyArray (header ++ frames ++ [control_token "end"]) TClose ->
  runStreamCommand rest ct command path post = (ev, Done (Some complete, None))
  /\ (ct = COMMAND_TREE -> command = "iter" -> path = IrminPath_empty -> post = None ->
      Iter rest = (ev, Done (Some (forward complete), None))).
Proof.
  intros Hurl Hsend header complete Hbody.
  assert (Hrun : runStreamCommand rest ct command path post = (ev, Done (Some complete, None))).
  { rewrite (runStreamCommand_answered _ _ _ _ _ _ _ _ Hurl Hsend).
    destruct (decode_loop_cut frames "start") as [Heof Hbad].
    destruct Hbody as [-> | [-> | ->]]; subst header; cbn [app];
      rewrite stream_header_ok; cbn [fst snd]; subst complete; congruence. }
  split; [exact Hrun|].
  intros -> -> -> ->. rewrite (Iter_of_stream _ _ _ _ Hrun). reflexivity.
Qed.

End Streams.

(** C4. When an element decodes to a reply with an empty result, the
    control token is decoded from the element after it, not from the element
    itself; when there is no such element or it does not decode, the
    goroutine returns; when it says "end" the goroutine returns; and in
    every other case the reply with the empty result is sent on the channel
    and the element after it is consumed. *)
Theorem empty_result_turn (j : JSON) (rest : list JSON) (tl : Tail) (tok : IrminString)
    (s : StreamReply) :
  unmarshal_StreamReply j zero_StreamReply = (s, None) ->
  st_Result s = None ->
  turn (mkDecoder (j :: rest) tl) tok
  = match rest with
    | [] => Return (Some ErrJSONSyntax)
    | next :: rest' =>
        match unmarshal_stream_token next tok with
        | (_, Some e) => Return (Some e)
        | (tok', None) =>
            if String.eqb tok' "end" then Return None
            else Send s (mkDecoder rest' tl) tok'
        end
    end.
Proof.
  intros Hs Hempty. unfold turn, More, Decode. cbn [dec_rest dec_tail negb].
  rewrite Hs, Hempty. destruct rest as [|next rest']; [reflexivity|].
  cbn [dec_rest dec_tail].
  destruct (unmarshal_stream_token next tok) as [tok' [e|]]; reflexivity.
Qed.

(** *** Streams on a sample server *)

(** C3, as stated, fails: a first element {"stream":"end"} is a well-formed
    token with a value other than "start", and the call returns no channel
    and a nil error. *)
Lemma wrong_start_token_is_no_error :
  runStreamCommand
    (Sample.conn (BodyArray [control_token "end"; version_token "v1"; Sample.frame "a";
                             control_token "end"] TClose) "")
    COMMAND_TREE "iter" [] None
  = ([EvGet "http://127.0.0.1:8080/iter"], Done (None, None)).
Proof. reflexivity. Qed.

Lemma stream_start_token_witness :
  let body := BodyArray [control_token "end"; version_token "v1"; Sample.frame "a";
                         control_token "end"] TClose in
  let rest := Sample.conn body "" in
  let ev := [EvGet "http://127.0.0.1:8080/iter"] in
  MakeCallUrl rest COMMAND_TREE "iter" [] = Ok "http://127.0.0.1:8080/iter"
  /\ send (H := Sample.answering body) false "http://127.0.0.1:8080/iter" None
     = (ev, Done (Ok (mkResponse body)))
  /\ runStreamCommand rest COMMAND_TREE "iter" [] None = (ev, Done (None, None))
  /\ Iter rest = (ev, Done (None, None)).
Proof.
  intros body rest ev.
  split; [reflexivity|]. split; [reflexivity|].
  destruct (stream_start_token rest COMMAND_TREE "iter" [] None
              "http://127.0.0.1:8080/iter" ev (mkResponse body)
              (mkDecoder [control_token "end"; version_token "v1"; Sample.frame "a";
                          control_token "end"] TClose))
    as (_ & _ & Hother & Hiter); [reflexivity..|].
  assert (Hrun : runStreamCommand rest COMMAND_TREE "iter" [] None = (ev, Done (None, None))).
  { apply Hother; [reflexivity | discriminate]. }
  split; [exact Hrun | apply Hiter; exact Hrun].
Defined.

Example missing_start_token_is_an_error :
  outcome (runStreamCommand (Sample.conn (BodyArray [] TEOF) "") COMMAND_TREE "iter" [] None)
  = Done (None, Some ErrJSONSyntax).
Proof. reflexivity. Qed.

Lemma empty_result_turn_witness :
  let boom := JObject [("error", JString "boom")] in
  unmarshal_StreamReply boom zero_StreamReply = (mkStreamReply "boom" None, None)
  /\ turn (mkDecoder [boom; Sample.frame "b"; control_token "end"] TClose) "start"
     = Send (mkStreamReply "boom" None) (mkDecoder [control_token "end"] TClose) "start".
Proof.
  intros boom. split; [reflexivity|].
  apply (empty_result_turn boom [Sample.frame "b"; control_token "end"] TClose "start"
           (mkStreamReply "boom" None)); reflexivity.
Defined.

(** The reply with the empty result is sent, the element after it is lost,
    and the goroutine of [Iter] panics on the empty message. *)
Example empty_result_is_sent :
  let body := BodyArray [control_token "start"; version_token "v1"; Sample.frame "a";
                         JObject [("error", JString "boom")]; Sample.frame "b";
                         control_token "end"] TClose in
  outcome (runStreamCommand (Sample.conn body "") COMMAND_TREE "iter" [] None)
  = Done (Some [Sample.reply "a"; mkStreamReply "boom" None], None)
  /\ outcome (Iter (Sample.conn body ""))
     = Done (Some ([Some ["a"]], Panicked ErrJSONSyntax), None).
Proof. split; reflexivity. Qed.

Lemma cut_stream_looks_complete_witness :
  let body := BodyArray [control_token "start"; version_token "v1"; Sample.frame "a";
                         Sample.frame "b"] TEOF in
  let rest := Sample.conn body "" in
  let ev := [EvGet "http://127.0.0.1:8080/iter"] in
  MakeCallUrl rest COMMAND_TREE "iter" [] = Ok "http://127.0.0.1:8080/iter"
  /\ send (H := Sample.answering body) false "http://127.0.0.1:8080/iter" None
     = (ev, Done (Ok (mkResponse body)))
  /\ runStreamCommand rest COMMAND_TREE "iter" [] None
     = (ev, Done (Some [Sample.reply "a"; Sample.reply "b"], None))
  /\ Iter rest = (ev, Done (Some ([Some ["a"]; Some ["b"]], Closed), None)).
Proof.
  intros body rest ev.
  split; [reflexivity|]. split; [reflexivity|].
  destruct (cut_stream_looks_complete rest COMMAND_TREE "iter" [] None
              "http://127.0.0.1:8080/iter" ev (mkResponse body) "v1"
              [Sample.frame "a"; Sample.frame "b"])
    as [Hrun Hiter]; [reflexivity | reflexivity | left; reflexivity |].
  split; [exact Hrun | apply Hiter; reflexivity].
Defined.

Example complete_stream :
  let body := BodyArray [control_token "start"; version_token "v1"; Sample.frame "a";
                         Sample.frame "b"; control_token "end"] TClose in
  outcome (Iter (Sample.conn body ""))
  = Done (Some ([Some ["a"]; Some ["b"]], Closed), None).
Proof. reflexivity. Qed.

(** A payload that is not a path makes the goroutine of [Iter] panic. *)
Example bad_payload_panics :
  let body := BodyArray [control_token "start"; version_token "v1";
                         JObject [("error", JString ""); ("result", JNumber 7)];
                         control_token "end"] TClose in
  outcome (Iter (Sample.conn body ""))
  = Done (Some ([], Panicked (ErrJSONType "IrminPath")), None).
Proof. reflexivity. Qed.

(** ** Closing the body of a streamed reply *)

Section ClosingTheBody.

Import Closing.











End ClosingTheBody.

(** * More of the package *)

(** ** URLs *)

Section MoreURLs.

Context `{Env}.

(** X1. A plain command and a tree command on a connection without tree
    selector build the same URL: the base resolved with what [url.Parse]
    makes of "/" + escape(command) + suffix(path); the plain command does so
    whatever the tree selector and task owner are.  A command type other than
    the three constants fails before anything is parsed. *)
Theorem MakeCallUrl_plain_and_unset_tree (base : URL) (t owner owner' command : string)
    (path : IrminPath) :
  let built :=
    match url_Parse ("/" ++ Go.QueryEscape command ++ URL_String (IrminPath_URL path)) with
    | Err e => Err e
    | Ok suffix => Ok (ResolveReference base suffix)
    end in
  MakeCallUrl (mkRestConn base t owner) COMMAND_PLAIN command path = built
  /\ MakeCallUrl (mkRestConn base "" owner') COMMAND_TREE command path = built
  /\ (forall ct, (ct < 0 \/ 2 < ct)%Z ->
        MakeCallUrl (mkRestConn base t owner) ct command path
        = Err (ErrUnknownCommandType ct)).
Proof.
  intros built. subst built. unfold MakeCallUrl.
  split; [|split].
  - cbn -[Go.Sprintf Go.QueryEscape]. rewrite Sprintf_plain_format. reflexivity.
  - cbn -[Go.Sprintf Go.QueryEscape]. rewrite Sprintf_plain_format. reflexivity.
  - intros ct Hct. unfold COMMAND_PLAIN, COMMAND_TREE, COMMAND_TAG.
    destruct (Z.eqb_spec ct 0); [lia|].
    destruct (Z.eqb_spec ct 1); [lia|].
    destruct (Z.eqb_spec ct 2); [lia|]. reflexivity.
Qed.

(** X2. A tag command never builds "/tag/" + escape(command) + suffix: the
    format of the parent branch puts the empty parent parameter between two
    slashes, a slash behind the command and the text of the missing fifth
    operand at the end, whatever the tree selector is. *)
Theorem MakeCallUrl_tag_text (rest : RestConn) (command : string) (path : IrminPath) :
  MakeCallUrl rest COMMAND_TAG command path
  = match url_Parse ("/tag//" ++ Go.QueryEscape command ++ "/"
                     ++ URL_String (IrminPath_URL path) ++ "%!s(MISSING)") with
    | Err e => Err e
    | Ok suffix => Ok (ResolveReference (base_uri rest) suffix)
    end.
Proof.
  unfold MakeCallUrl. cbn -[Go.Sprintf Go.QueryEscape].
  rewrite Sprintf_parent_format. reflexivity.
Qed.

End MoreURLs.

Example MakeCallUrl_tag_sample :
  MakeCallUrl (Sample.conn BodyInvalid "") COMMAND_TAG "read" ["a"]
  = Err (ErrURL "invalid URL escape").
Proof. reflexivity. Qed.

(** ** Requests, answered or not *)

Section MoreRequests.

Context `{Env}.

(** What [runCommand] returns once a response has arrived: the error of
    reading the body, or what [json.Unmarshal] makes of it. *)
Local Abbreviation received unmarshal res v :=
  (match ReadAll (resp_Body res) with
   | Some e => (v, Some e)
   | None => json_Unmarshal unmarshal (resp_Body res) v
   end).

Lemma runCommand_cases {S : Type} (unmarshal : JSON -> S -> S * option error)
    (rest : RestConn) (ct : SubCommandType) (command : string) (path : IrminPath)
    (post : option PostRequest) (v : S) :
  runCommand unmarshal rest ct command path post v
  = match MakeCallUrl rest ct command path with
    | Err e => ([], Done (v, Some e))
    | Ok uri =>
        match post with
        | None =>
            match http_Get (URL_String uri) with
            | Err e => ([EvGet (URL_String uri)], Done (v, Some e))
            | Ok res => ([EvGet (URL_String uri); EvClose], Done (received unmarshal res v))
            end
        | Some p =>
            let j := json_text (marshal_PostRequest p) in
            match http_Post (URL_String uri) "application/json" j with
            | Err _ =>
                ([EvStdout ("body " ++ j ++ nl); EvPost (URL_String uri) "application/json" j],
                 Panic "invalid memory address or nil pointer dereference")
            | Ok res =>
                ([EvStdout ("body " ++ j ++ nl); EvPost (URL_String uri) "application/json" j;
                  EvClose],
                 Done (received unmarshal res v))
            end
        end
    end.
Proof.
  unfold runCommand. destruct (MakeCallUrl rest ct command path) as [uri|e]; [|reflexivity].
  destruct post as [p|]; unfold send; cbn zeta.
  - destruct (http_Post _ _ _); cbn -[Go.Sprintf]; rewrite Sprintf_body_format; reflexivity.
  - destruct (http_Get _); reflexivity.
Qed.

Lemma runStreamCommand_cases (rest : RestConn) (ct : SubCommandType) (command : string)
    (path : IrminPath) (post : option PostRequest) :
  runStreamCommand rest ct command path post
  = match MakeCallUrl rest ct command path with
    | Err e => ([], Done (None, Some e))
    | Ok uri =>
        let streamed (res : Response) :=
          match stream_header (resp_Body res) with
          | (None, err) => (None, err)
          | (Some (dec, tok), _) => (Some (fst (decode_loop dec tok)), None)
          end in
        match post with
        | None =>
            ([EvGet (URL_String uri)],
             Done match http_Get (URL_String uri) with
                  | Err e => (None, Some e)
                  | Ok res => streamed res
                  end)
        | Some p =>
            let j := json_text (marshal_PostRequest p) in
            ([EvPost (URL_String uri) "application/json" j],
             match http_Post (URL_String uri) "application/json" j with
             | Err _ => Panic "invalid memory address or nil pointer dereference"
             | Ok res => Done (streamed res)
             end)
        end
    end.
Proof.
  unfold runStreamCommand.
  destruct (MakeCallUrl rest ct command path) as [uri|e]; [|reflexivity].
  destruct post as [p|]; unfold send; cbn zeta.
  - destruct (http_Post _ _ _); reflexivity.
  - destruct (http_Get _); reflexivity.
Qed.

(** X3. [runCommand] closes the response body exactly once when a response
    has arrived, as its last action and whether or not the body decodes, and
    never when no URL could be built or the request failed. *)
Theorem runCommand_closes_the_body {S : Type} (unmarshal : JSON -> S -> S * option error)
    (rest : RestConn) (ct : SubCommandType) (command : string) (path : IrminPath)
    (post : option PostRequest) (v : S) :
  let ev := events (runCommand unmarshal rest ct command path post v) in
  let answer (uri : URL) :=
    match post with
    | None => http_Get (URL_String uri)
    | Some p => http_Post (URL_String uri) "application/json" (json_text (marshal_PostRequest p))
    end in
  (closes_of ev <= 1)%nat
  /\ (closes_of ev = 1%nat <->
      exists uri res, MakeCallUrl rest ct command path = Ok uri /\ answer uri = Ok res)
  /\ (closes_of ev = 1%nat -> last ev = Some EvClose).
Proof.
  intros ev answer. subst ev answer. rewrite runCommand_cases.
  destruct (MakeCallUrl rest ct command path) as [uri|e].
  - destruct post as [p|]; cbn zeta.
    + destruct (http_Post _ _ _) as [res|e] eqn:Hpost; cbn.
      * split; [lia|]. split; [|reflexivity].
        split; [intros _; exists uri, res; split; [reflexivity | exact Hpost] | reflexivity].
      * split; [lia|]. split; [|discriminate].
        split; [discriminate|]. intros (u & r & [= <-] & Hr). congruence.
    + destruct (http_Get _) as [res|e] eqn:Hget; cbn.
      * split; [lia|]. split; [|reflexivity].
        split; [intros _; exists uri, res; split; [reflexivity | exact Hget] | reflexivity].
      * split; [lia|]. split; [|discriminate].
        split; [discriminate|]. intros (u & r & [= <-] & Hr). congruence.
  - cbn. split; [lia|]. split; [|discriminate].
    split; [discriminate|]. intros (u & r & Hu & _). discriminate.
Qed.

End MoreRequests.

(** ** The operations, whatever the server does *)

Section MoreOperations.

Context `{Env}.

Lemma IrminString_MarshalJSON_total (i : IrminString) :
  IrminString_MarshalJSON i = Ok (marshal_IrminString i).
Proof.
  unfold marshal_IrminString, IrminString_MarshalJSON.
  destruct (Go.utf8_Valid i); reflexivity.
Qed.




End MoreOperations.

(** *** On sample servers *)







(** ** Replies *)

Section MoreReplies.

Context `{Env}.

Lemma outcome_bind {A B : Type} (m : IO A) (k : A -> IO B) :
  outcome (m ≫= k)
  = match outcome m with
    | Done a => outcome (k a)
    | Panic r => Panic r
    end.
Proof. destruct m as [ev [a|r]]; [rewrite bind_Done|]; reflexivity. Qed.

(** X6. A reply whose error member is not empty makes every operation fail
    with [fmt.Errorf] of that text and the zero result of its type, before
    the result is looked at; [Iter] alone fails with a decoding error
    instead, since a streamed call reads an array and no envelope. *)
Theorem remote_error_first (rest : RestConn) (remote : string) (t : Task)
    (path parsed : IrminPath) (oldcontents contents name : string) (force : bool) :
  let reply := BodyText (JObject [("error", JString remote)]) in
  remote <> "" ->
  (forall command p, exists uri, MakeCallUrl rest COMMAND_TREE command p = Ok uri) ->
  (forall url, http_Get url = Ok (mkResponse reply)) ->
  (forall url contentType body, http_Post url contentType body = Ok (mkResponse reply)) ->
  ParseEncodedPath (Go.QueryEscape name) = Ok parsed ->
  outcome (Read rest path) = Done ("", Some (Errorf remote []))
  /\ outcome (ReadString rest path) = Done ("", Some (Errorf remote []))
  /\ outcome (List rest path) = Done ([], Some (Errorf remote []))
  /\ outcome (Mem rest path) = Done (false, Some (Errorf remote []))
  /\ outcome (AvailableCommands rest) = Done ([], Some (Errorf remote []))
  /\ outcome (Version rest) = Done ("", Some (Errorf remote []))
  /\ outcome (Update rest t path contents) = Done ("", Some (Errorf remote []))
  /\ outcome (CompareAndSet rest t path oldcontents contents)
     = Done ("", Some (Errorf remote []))
  /\ outcome (Remove rest t path) = Done (Some (Errorf remote []))
  /\ outcome (RemoveRec rest t path) = Done (Some (Errorf remote []))
  /\ outcome (Clone rest name force) = Done (Some (Errorf remote []))
  /\ (exists e, outcome (Iter rest) = Done (None, Some e) /\ e <> Errorf remote []).
Proof.
  intros reply Hremote Hurl Hget Hpost Hname. subst reply.
  assert (Hne : String.eqb remote "" = false).
  { destruct (String.eqb_spec remote ""); [contradiction | reflexivity]. }
  assert (Hrun : forall (S : Type) (unmarshal : JSON -> S -> S * option error)
                   command p post (v : S),
            outcome (runCommand unmarshal rest COMMAND_TREE command p post v)
            = Done (unmarshal (JObject [("error", JString remote)]) v)).
  { intros S unmarshal command p post v. rewrite runCommand_cases.
    destruct (Hurl command p) as [uri ->].
    destruct post; cbn zeta; [rewrite Hpost | rewrite Hget]; reflexivity. }
  assert (Hsr : unmarshal_StringReply (JObject [("error", JString remote)]) zero_StringReply
                = (mkStringReply "" remote "", None)) by reflexivity.
  assert (Hsar : unmarshal_StringArrayReply (JObject [("error", JString remote)])
                   zero_StringArrayReply
                 = (mkStringArrayReply [] remote "", None)) by reflexivity.
  assert (Hpar : unmarshal_PathArrayReply (JObject [("error", JString remote)])
                   zero_PathArrayReply
                 = (mkPathArrayReply [] remote "", None)) by reflexivity.
  assert (Hbr : unmarshal_BoolReply (JObject [("error", JString remote)]) zero_BoolReply
                = (mkBoolReply false remote "", None)) by reflexivity.
  repeat match goal with |- _ /\ _ => split end.
  - unfold Read. rewrite outcome_bind, Hrun, Hsar. cbn -[String.eqb].
    unfold IrminString_String. now rewrite Hne.
  - unfold ReadString, Read. rewrite !outcome_bind, Hrun, Hsar. cbn -[String.eqb].
    unfold IrminString_String. now rewrite Hne.
  - unfold List. rewrite outcome_bind, Hrun, Hpar. cbn -[String.eqb].
    unfold IrminString_String. now rewrite Hne.
  - unfold Mem. rewrite outcome_bind, Hrun, Hbr. cbn -[String.eqb].
    unfold IrminString_String. now rewrite Hne.
  - unfold AvailableCommands. rewrite outcome_bind, Hrun, Hsar. cbn -[String.eqb].
    unfold IrminString_String. now rewrite Hne.
  - unfold Version. rewrite outcome_bind, Hrun, Hsar. cbn -[String.eqb].
    unfold IrminString_String. now rewrite Hne.
  - unfold Update. rewrite IrminString_MarshalJSON_total, outcome_bind, Hrun, Hsr.
    cbn -[String.eqb]. unfold IrminString_String. now rewrite Hne.
  - unfold CompareAndSet. rewrite outcome_bind, Hrun, Hsr. cbn -[String.eqb].
    unfold IrminString_String. now rewrite Hne.
  - unfold Remove, remove_with. rewrite outcome_bind, Hrun, Hsr. cbn -[String.eqb].
    unfold IrminString_String. now rewrite Hne.
  - unfold RemoveRec, remove_with. rewrite outcome_bind, Hrun, Hsr. cbn -[String.eqb].
    unfold IrminString_String. now rewrite Hne.
  - unfold Clone. rewrite Hname, outcome_bind, Hrun, Hsr. cbn -[String.eqb].
    unfold IrminString_String. now rewrite Hne.
  - exists ErrJSONSyntax. split; [|discriminate].
    unfold Iter. rewrite runStreamCommand_cases.
    destruct (Hurl "iter" IrminPath_empty) as [uri ->]. cbn zeta.
    rewrite Hget. reflexivity.
Qed.

End MoreReplies.

Section MoreResults.

Context `{Env}.

Ltac run_reply Hrun :=
  rewrite Hrun, bind_Done; cbn [fst snd];
  unfold mret, IO_ret; cbn [fst snd]; rewrite app_nil_r.


Lemma unmarshal_PathArrayReply_envelope (elements : list JSON) (version : string) :
  unmarshal_PathArrayReply
    (JObject [("result", JArray elements); ("error", JString ""); ("version", JString version)])
    zero_PathArrayReply
  = match Json.decode_list IrminPath_UnmarshalJSON elements with
    | Ok paths => (mkPathArrayReply paths "" version, None)
    | Err e => (zero_PathArrayReply, Some e)
    end.
Proof.
  unfold unmarshal_PathArrayReply, Json.decode_struct. cbn [Json.decode_members].
  change (first_match PathArrayReply_fields "result") with (Some store_Paths).
  cbv beta iota. unfold store_Paths. cbn [Json.decode_slice].
  destruct (Json.decode_list IrminPath_UnmarshalJSON elements) as [paths|e]; reflexivity.
Qed.

(** X8. On an error-free envelope whose result is an array, [List] sends one
    GET, closes the body, and returns the paths decoded from the array, all
    of them and in the order of the array, the empty array giving the empty
    list without error; one element that does not decode as a path fails the
    whole call with that error and the empty list. *)
Theorem List_returns_the_decoded_paths (rest : RestConn) (path : IrminPath) (uri : URL)
    (elements : list JSON) (version : string) :
  MakeCallUrl rest COMMAND_TREE "list" path = Ok uri ->
  http_Get (URL_String uri)
  = Ok (mkResponse (BodyText (JObject [("result", JArray elements); ("error", JString "");
                                        ("version", JString version)]))) ->
  List rest path
  = ([EvGet (URL_String uri); EvClose],
     Done match Json.decode_list IrminPath_UnmarshalJSON elements with
          | Ok paths => (paths, None)
          | Err e => ([], Some e)
          end).
Proof.
  intros Hurl Hget. unfold List. rewrite runCommand_cases, Hurl, Hget. cbn zeta.
  rewrite bind_Done. cbn [ReadAll resp_Body json_Unmarshal].
  rewrite unmarshal_PathArrayReply_envelope.
  destruct (Json.decode_list IrminPath_UnmarshalJSON elements) as [paths|e]; reflexivity.
Qed.

(** X9. On an error-free envelope [Mem] returns the boolean of the result;
    a [null] result is [false] without error, and any other result is a type
    error of the decoder, returned with [false]. *)
Theorem Mem_returns_the_boolean (rest : RestConn) (path : IrminPath) (uri : URL)
    (result : JSON) (version : string) :
  MakeCallUrl rest COMMAND_TREE "mem" path = Ok uri ->
  http_Get (URL_String uri)
  = Ok (mkResponse (BodyText (JObject [("result", result); ("error", JString "");
                                        ("version", JString version)]))) ->
  Mem rest path
  = ([EvGet (URL_String uri); EvClose],
     Done match result with
          | JBool b => (b, None)
          | JNull => (false, None)
          | _ => (false, Some (ErrJSONType "Result"))
          end).
Proof.
  intros Hurl Hget. unfold Mem. rewrite runCommand_cases, Hurl, Hget. cbn zeta.
  rewrite bind_Done. destruct result as [|[]| | | |]; reflexivity.
Qed.

(** X10. [AvailableCommands] and [Version] send the same request, for the
    empty command on the empty path; they fail together, with the same
    error, and from one error-free reply the first returns the results and
    the second the version. *)
Theorem AvailableCommands_and_Version_share_the_call (rest : RestConn) :
  events (AvailableCommands rest) = events (Version rest)
  /\ (forall commands err,
        outcome (AvailableCommands rest) = Done (commands, err) ->
        exists version, outcome (Version rest) = Done (version, err))
  /\ (forall ev data,
        runCommand unmarshal_StringArrayReply rest COMMAND_TREE "" IrminPath_empty None
          zero_StringArrayReply = (ev, Done (data, None)) ->
        sar_Error data = "" ->
        AvailableCommands rest = (ev, Done (map IrminString_String (sar_Result data), None))
        /\ Version rest = (ev, Done (IrminString_String (sar_Version data), None))).
Proof.
  unfold AvailableCommands, Version.
  destruct (runCommand unmarshal_StringArrayReply rest COMMAND_TREE "" IrminPath_empty None
              zero_StringArrayReply) as [ev0 [[data0 err0]|r]].
  - rewrite !bind_Done. unfold outcome, events, mret, IO_ret. cbn [fst snd].
    split; [reflexivity|]. split.
    + intros commands err.
      destruct err0 as [e|]; [intros [= _ <-]; eauto|].
      destruct (negb (String.eqb (IrminString_String (sar_Error data0)) ""));
        intros [= _ <-]; eauto.
    + intros ev data [= -> -> ->] Herr. unfold IrminString_String. rewrite Herr.
      cbn [String.eqb negb]. rewrite app_nil_r. split; reflexivity.
  - rewrite !bind_Panic. split; [reflexivity|]. split; [discriminate|]. discriminate.
Qed.

Lemma runCommand_methods {S : Type} (unmarshal : JSON -> S -> S * option error)
    (rest : RestConn) (ct : SubCommandType) (command : string) (path : IrminPath)
    (post : option PostRequest) (v : S) :
  let ev := events (runCommand unmarshal rest ct command path post v) in
  match post with
  | None => posts_of ev = [] /\ stdout_of ev = [] /\ (length (gets_of ev) <= 1)%nat
  | Some _ => gets_of ev = [] /\ (length (posts_of ev) <= 1)%nat
  end.
Proof.
  cbn zeta. rewrite runCommand_cases.
  destruct (MakeCallUrl rest ct command path) as [uri|e].
  - destruct post as [p|]; cbn zeta.
    + destruct (http_Post _ _ _); cbn; split; [reflexivity | lia | reflexivity | lia].
    + destruct (http_Get _); cbn; repeat split; lia.
  - destruct post; cbn; repeat split; lia.
Qed.

(** X11. The operations that read send at most one GET each, never a POST,
    and print nothing; [Clone], which changes the store, is one of them.
    [Update], [CompareAndSet], [Remove] and [RemoveRec] send at most one POST
    each and never a GET. *)
Theorem operations_and_their_requests (rest : RestConn) (t : Task) (path : IrminPath)
    (oldcontents contents name : string) (force : bool) :
  Forall (fun ev => posts_of ev = [] /\ stdout_of ev = [] /\ (length (gets_of ev) <= 1)%nat)
    [ events (Read rest path); events (ReadString rest path); events (List rest path);
      events (Mem rest path); events (AvailableCommands rest); events (Version rest);
      events (Clone rest name force); events (Iter rest) ]
  /\ Forall (fun ev => gets_of ev = [] /\ (length (posts_of ev) <= 1)%nat)
       [ events (Update rest t path contents);
         events (CompareAndSet rest t path oldcontents contents);
         events (Remove rest t path); events (RemoveRec rest t path) ].
Proof.
  split; repeat (apply Forall_cons; split); try (now apply Forall_nil).
  - unfold Read. rewrite events_bind_pure by (intros [? ?]; reflexivity).
    apply (runCommand_methods _ _ _ _ _ None).
  - unfold ReadString, Read. rewrite !events_bind_pure by (intros [? ?]; reflexivity).
    apply (runCommand_methods _ _ _ _ _ None).
  - unfold List. rewrite events_bind_pure by (intros [? ?]; reflexivity).
    apply (runCommand_methods _ _ _ _ _ None).
  - unfold Mem. rewrite events_bind_pure by (intros [? ?]; reflexivity).
    apply (runCommand_methods _ _ _ _ _ None).
  - unfold AvailableCommands. rewrite events_bind_pure by (intros [? ?]; reflexivity).
    apply (runCommand_methods _ _ _ _ _ None).
  - unfold Version. rewrite events_bind_pure by (intros [? ?]; reflexivity).
    apply (runCommand_methods _ _ _ _ _ None).
  - unfold Clone. destruct (ParseEncodedPath (Go.QueryEscape name)) as [parsed|e].
    + rewrite events_bind_pure by (intros [? ?]; reflexivity).
      apply (runCommand_methods _ _ _ _ _ None).
    + cbn. repeat split; lia.
  - unfold Iter. rewrite events_bind_pure by (intros [? ?]; reflexivity).
    rewrite runStreamCommand_cases.
    destruct (MakeCallUrl rest COMMAND_TREE "iter" IrminPath_empty); cbn; repeat split; lia.
  - unfold Update. rewrite IrminString_MarshalJSON_total.
    rewrite events_bind_pure by (intros [? ?]; reflexivity).
    apply (runCommand_methods _ _ _ _ _ (Some _)).
  - unfold CompareAndSet. rewrite events_bind_pure by (intros [? ?]; reflexivity).
    apply (runCommand_methods _ _ _ _ _ (Some _)).
  - unfold Remove, remove_with. rewrite events_bind_pure by (intros [? ?]; reflexivity).
    apply (runCommand_methods _ _ _ _ _ (Some _)).
  - unfold RemoveRec, remove_with. rewrite events_bind_pure by (intros [? ?]; reflexivity).
    apply (runCommand_methods _ _ _ _ _ (Some _)).
Qed.

End MoreResults.

(** *** Replies of sample servers *)

Lemma remote_error_first_witness :
  let reply := BodyText (JObject [("error", JString "not found")]) in
  let E := with_parse (Sample.answering reply) (fun s => Ok s) in
  let rest := @mkRestConn E "http://127.0.0.1:8080" "" "owner" in
  (forall command p, exists uri, MakeCallUrl rest COMMAND_TREE command p = Ok uri)
  /\ outcome (Read rest ["a"]) = Done ("", Some (Errorf "not found" []))
  /\ outcome (Mem rest ["a"]) = Done (false, Some (Errorf "not found" []))
  /\ outcome (Update rest Sample.task ["a"] "new") = Done ("", Some (Errorf "not found" []))
  /\ outcome (Clone rest "x" false) = Done (Some (Errorf "not found" [])).
Proof.
  intros reply E rest.
  assert (Hurl : forall command p, exists uri, MakeCallUrl rest COMMAND_TREE command p = Ok uri).
  { intros command p. eexists. reflexivity. }
  split; [exact Hurl|].
  destruct (remote_error_first rest "not found" Sample.task ["a"] ["x"] "old" "new" "x" false)
    as (Hread & _ & _ & Hmem & _ & _ & Hupdate & _ & _ & _ & Hclone & _);
    [discriminate | exact Hurl | reflexivity | reflexivity | reflexivity |].
  auto.
Defined.


Example Remove_of_an_empty_result :
  outcome (Remove (Sample.conn (Sample.envelope (JString "")) "") Sample.task ["a"])
  = Done None.
Proof. reflexivity. Qed.

Lemma List_returns_the_decoded_paths_witness :
  let url := "http://127.0.0.1:8080/list/a" in
  let routes :=
    [(url, Sample.envelope (JArray [JArray [JString "a"; JString "b"];
                                    JArray [JString "a"; JString "c"]]))] in
  let rest := Routes.conn routes "" in
  MakeCallUrl rest COMMAND_TREE "list" ["a"] = Ok url
  /\ List rest ["a"] = ([EvGet url; EvClose], Done ([["a"; "b"]; ["a"; "c"]], None)).
Proof.
  intros url routes rest. split; [reflexivity|].
  apply (List_returns_the_decoded_paths rest ["a"] url
           [JArray [JString "a"; JString "b"]; JArray [JString "a"; JString "c"]] "1");
    reflexivity.
Defined.

Example List_of_nothing :
  outcome (List (Sample.conn (Sample.envelope (JArray [])) "") ["a"]) = Done ([], None).
Proof. reflexivity. Qed.

Lemma Mem_returns_the_boolean_witness :
  let url := "http://127.0.0.1:8080/mem/a" in
  let rest := Routes.conn [(url, Sample.envelope (JBool true))] "" in
  MakeCallUrl rest COMMAND_TREE "mem" ["a"] = Ok url
  /\ Mem rest ["a"] = ([EvGet url; EvClose], Done (true, None)).
Proof.
  intros url rest. split; [reflexivity|].
  apply (Mem_returns_the_boolean rest ["a"] url (JBool true) "1"); reflexivity.
Defined.

Example AvailableCommands_sample :
  let rest := Sample.conn (Sample.envelope (JArray [JString "read"; JString "mem"])) "" in
  AvailableCommands rest = ([EvGet "http://127.0.0.1:8080/"; EvClose], Done (["read"; "mem"], None))
  /\ Version rest = ([EvGet "http://127.0.0.1:8080/"; EvClose], Done ("1", None)).
Proof. split; reflexivity. Qed.

(** ** Connections and tasks *)

Section MoreConnections.

Context `{Env}.

(** X12. [Create] allocates a connection that was not in the store, without
    tree selector and with the given task owner, and leaves every connection
    of the store as it was; a task made on it has the uid "0", that owner and
    the one message given. *)
Theorem Create_makes_a_fresh_connection (h : gmap nat RestConn) (uri : URL)
    (owner message : string) (now : Z) :
  let r := fst (Create uri owner h) in
  let h' := snd (Create uri owner h) in
  h !! r = None
  /\ h' !! r = Some (mkRestConn uri "" owner)
  /\ Tree r h' = Some ""
  /\ TaskOwner r h' = Some owner
  /\ (forall l c, h !! l = Some c -> h' !! l = Some c)
  /\ NewTask_at r message now h' = Some (mkTask (pretty now) "0" owner [message]).
Proof.
  cbn zeta. unfold Create. cbn [fst snd].
  set (r := fresh (dom h)).
  assert (Hfresh : h !! r = None) by (apply not_elem_of_dom, is_fresh).
  unfold Tree, TaskOwner, NewTask_at. rewrite lookup_insert_eq.
  repeat split; try reflexivity; [exact Hfresh|].
  intros l c Hl. rewrite lookup_insert_ne; [exact Hl | congruence].
Qed.

(** X13. A connection derived with [FromTree] shares nothing that the
    package changes: setting the task owner of the original afterwards
    leaves the derived connection with the owner it was derived with, and
    setting the task owner of the derived connection leaves the original
    alone; each keeps its tree selector. *)
Theorem derived_connection_is_independent (h : gmap nat RestConn) (rest : nat)
    (c : RestConn) (new_tree owner : string) :
  h !! rest = Some c ->
  exists r h1 h2 h3,
    FromTree rest new_tree h = Some (r, h1)
    /\ r <> rest
    /\ SetTaskOwner rest owner h1 = Some h2
    /\ TaskOwner rest h2 = Some owner
    /\ TaskOwner r h2 = Some (taskowner c)
    /\ Tree r h2 = Some new_tree
    /\ Tree rest h2 = Some (tree c)
    /\ SetTaskOwner r owner h1 = Some h3
    /\ TaskOwner r h3 = Some owner
    /\ TaskOwner rest h3 = Some (taskowner c)
    /\ Tree r h3 = Some new_tree
    /\ Tree rest h3 = Some (tree c).
Proof.
  intros Hc. unfold FromTree, SetTaskOwner, Tree, TaskOwner. rewrite Hc.
  set (r := fresh (dom h)).
  assert (Hfresh : h !! r = None) by (apply not_elem_of_dom, is_fresh).
  assert (Hne : r <> rest) by congruence.
  eexists r, _, _, _. split; [reflexivity|]. split; [exact Hne|].
  rewrite lookup_insert_ne by exact Hne. rewrite Hc. split; [reflexivity|].
  rewrite lookup_insert_eq. split; [reflexivity|].
  rewrite lookup_insert_ne by congruence. rewrite lookup_insert_eq.
  split; [reflexivity|]. split; [reflexivity|]. split; [reflexivity|].
  split; [reflexivity|].
  rewrite lookup_insert_eq. split; [reflexivity|].
  rewrite lookup_insert_ne by exact Hne. rewrite lookup_insert_ne by exact Hne. rewrite Hc.
  repeat split; reflexivity.
Qed.

(** X14. A task always has the uid "0", the decimal numeral of the time as
    its date and exactly the one message given; its owner is the task owner
    the connection has when the task is made: after [SetTaskOwner] it is the
    new owner. *)
Theorem NewTask_follows_SetTaskOwner (h : gmap nat RestConn) (rest : nat) (c : RestConn)
    (owner message : string) (now : Z) :
  h !! rest = Some c ->
  NewTask_at rest message now h
  = Some (mkTask (pretty now) "0" (taskowner c) [message])
  /\ exists h',
       SetTaskOwner rest owner h = Some h'
       /\ NewTask_at rest message now h' = Some (mkTask (pretty now) "0" owner [message]).
Proof.
  intros Hc. unfold NewTask_at, SetTaskOwner. rewrite Hc. split; [reflexivity|].
  eexists. split; [reflexivity|]. rewrite lookup_insert_eq. reflexivity.
Qed.

End MoreConnections.

Lemma derived_connection_is_independent_witness :
  let E := Sample.answering BodyInvalid in
  let c := mkRestConn (H := E) "http://127.0.0.1:8080" "" "alice" in
  let h : gmap nat RestConn := {[ 0%nat := c ]} in
  h !! 0%nat = Some c
  /\ exists r h1 h2,
       FromTree 0%nat "foo" h = Some (r, h1)
       /\ SetTaskOwner 0%nat "bob" h1 = Some h2
       /\ TaskOwner 0%nat h2 = Some "bob"
       /\ TaskOwner r h2 = Some "alice"
       /\ Tree r h2 = Some "foo".
Proof.
  intros E c h.
  assert (Hc : h !! 0%nat = Some c) by reflexivity.
  split; [exact Hc|].
  destruct (derived_connection_is_independent h 0%nat c "foo" "bob" Hc)
    as (r & h1 & h2 & _ & Hft & _ & Hset & Hrest & Hr & Htree & _).
  exists r, h1, h2. auto.
Defined.

Lemma NewTask_follows_SetTaskOwner_witness :
  let E := Sample.answering BodyInvalid in
  let c := mkRestConn (H := E) "http://127.0.0.1:8080" "" "alice" in
  let h : gmap nat RestConn := {[ 0%nat := c ]} in
  h !! 0%nat = Some c
  /\ NewTask_at 0%nat "first" 1446336000 h = Some (mkTask "1446336000" "0" "alice" ["first"])
  /\ exists h',
       SetTaskOwner 0%nat "bob" h = Some h'
       /\ NewTask_at 0%nat "first" 1446336000 h'
          = Some (mkTask "1446336000" "0" "bob" ["first"]).
Proof.
  intros E c h.
  assert (Hc : h !! 0%nat = Some c) by reflexivity.
  split; [exact Hc|].
  exact (NewTask_follows_SetTaskOwner h 0%nat c "bob" "first" 1446336000 Hc).
Defined.

(** ** Streams of data frames *)

Lemma decode_loop_sends_data (elems : list JSON) (replies : list StreamReply)
    (tok : IrminString) :
  Forall2 (fun j r => unmarshal_StreamReply j zero_StreamReply = (r, None)
                      /\ st_Result r <> None) elems replies ->
  decode_loop (mkDecoder (elems ++ [control_token "end"]) TClose) tok
  = (replies, Some ErrJSONSyntax)
  /\ forall t, fst (decode_loop (mkDecoder elems t) tok) = replies.
Proof.
  induction 1 as [|j r elems replies [Hj Hr] _ [IHend IHany]].
  - split.
    + rewrite decode_loop_eq. reflexivity.
    + intros t. rewrite decode_loop_eq. destruct t; reflexivity.
  - assert (Hturn : forall rest t,
              turn (mkDecoder (j :: rest) t) tok = Send r (mkDecoder rest t) tok).
    { intros rest t. unfold turn, More, Decode. cbn [dec_rest dec_tail negb].
      rewrite Hj. destruct (st_Result r); [reflexivity | contradiction]. }
    split.
    + rewrite decode_loop_eq. change ((j :: elems) ++ [control_token "end"])%list
        with (j :: (elems ++ [control_token "end"]))%list.
      rewrite Hturn. cbn zeta. rewrite IHend. reflexivity.
    + intros t. rewrite decode_loop_eq, Hturn. cbn zeta. cbn [fst]. now rewrite IHany.
Qed.



Section MoreStreams.

Context `{Env}.


(** X16. On a stream made of the start token, a version token, data frames
    and the end token, [Iter] sends one GET and delivers the paths decoded
    from the frames' results, all of them, in the order of the stream, and
    then closes its channel; the error member of a frame plays no part. *)
Theorem Iter_delivers_the_keys_in_order (rest : RestConn) (uri : URL) (version : string)
    (frames : list (string * JSON)) (paths : list IrminPath) :
  MakeCallUrl rest COMMAND_TREE "iter" IrminPath_empty = Ok uri ->
  http_Get (URL_String uri)
  = Ok (mkResponse
          (BodyArray ([control_token "start"; version_token version]
                      ++ map (fun f => JObject [("error", JString (fst f)); ("result", snd f)])
                           frames
                      ++ [control_token "end"]) TClose)) ->
  Forall2 (fun f p => snd f <> JNull /\ IrminPath_UnmarshalJSON (snd f) = Ok p) frames paths ->
  Iter rest = ([EvGet (URL_String uri)], Done (Some (map Some paths, Closed), None)).
Proof.
  intros Hurl Hget Hframes.
  unfold Iter. rewrite runStreamCommand_cases, Hurl. cbn zeta. rewrite Hget.
  rewrite bind_Done. cbn [resp_Body app]. rewrite stream_header_ok.
  cbn [fst snd mret IO_ret app].
  assert (Hloop : decode_loop
                    (mkDecoder (map (fun f => JObject [("error", JString (fst f));
                                                       ("result", snd f)]) frames
                                ++ [control_token "end"]) TClose) "start"
                  = (map (fun f => mkStreamReply (fst f) (Some (snd f))) frames,
                     Some ErrJSONSyntax)).
  { apply decode_loop_sends_data. clear. induction frames as [|f frames IH]; constructor.
    - split; [reflexivity | discriminate].
    - exact IH. }
  rewrite Hloop. cbn [fst].
  assert (Hfwd : forward (map (fun f => mkStreamReply (fst f) (Some (snd f))) frames)
                 = (map Some paths, Closed)).
  { clear -Hframes. induction Hframes as [|f p frames paths [Hnull Hp] _ IH]; [reflexivity|].
    cbn [map forward st_Result fst snd]. unfold unmarshal_path.
    destruct f as [e j]. cbn [fst snd] in *.
    destruct j; try contradiction; rewrite Hp; cbn [fst snd] in IH |- *;
      rewrite IH; reflexivity. }
  rewrite Hfwd. reflexivity.
Qed.

End MoreStreams.

Lemma Iter_delivers_the_keys_in_order_witness :
  let url := "http://127.0.0.1:8080/iter" in
  let body := BodyArray [control_token "start"; version_token "v1";
                         JObject [("error", JString ""); ("result", JArray [JString "a"])];
                         JObject [("error", JString "boom"); ("result", JArray [JString "b"])];
                         control_token "end"] TClose in
  let rest := Routes.conn [(url, body)] "" in
  MakeCallUrl rest COMMAND_TREE "iter" [] = Ok url
  /\ Iter rest = ([EvGet url], Done (Some ([Some ["a"]; Some ["b"]], Closed), None)).
Proof.
  intros url body rest. split; [reflexivity|].
  apply (Iter_delivers_the_keys_in_order rest url "v1"
           [("", JArray [JString "a"]); ("boom", JArray [JString "b"])] [["a"]; ["b"]]);
    [reflexivity | reflexivity |].
  repeat constructor; discriminate.
Defined.


(** ** The text of a remote error *)





(** ** Streams that fit the channel *)

Section ShortStreams.

Import Closing.






End ShortStreams.

(** ** The loop of the example program *)

Section ExampleProgram.

Context `{Env}.

Lemma Sprintf_line_format (a b : string) : Go.Sprintf line_format [a; b] = a ++ "=" ++ b ++ nl.
Proof.
  unfold Go.Sprintf, line_format. cbn.
  rewrite ?append_empty_r. reflexivity.
Qed.

Lemma ReadString_prints_nothing (r : RestConn) (p : IrminPath) :
  stdout_of (events (ReadString r p)) = [].
Proof.
  unfold ReadString, Read. rewrite !events_bind_pure by (intros [? ?]; reflexivity).
  apply (runCommand_methods _ _ _ _ _ None).
Qed.

Lemma main_loop_through (r : RestConn) (good : list IrminPath) (value : IrminPath -> string)
    (tail : list (option IrminPath)) :
  (forall p, In p good -> exists ev, ReadString r p = (ev, Done (value p, None))) ->
  outcome (main_loop r (map Some good ++ tail)) = outcome (main_loop r tail)
  /\ stdout_of (events (main_loop r (map Some good ++ tail)))
     = (map (fun p => (IrminPath_String p ++ "=" ++ value p ++ nl)%string) good
        ++ stdout_of (events (main_loop r tail)))%list.
Proof.
  induction good as [|p good IH]; intros Hgood; [split; reflexivity|].
  destruct (Hgood p (or_introl eq_refl)) as [ev Hread].
  destruct IH as [IHout IHprint]; [intros q Hq; apply Hgood; right; exact Hq|].
  pose proof (ReadString_prints_nothing r p) as Hquiet. rewrite Hread in Hquiet.
  cbn [events fst] in Hquiet.
  cbn [map app main_loop]. rewrite Hread, bind_Done. cbn beta iota.
  unfold emit. rewrite bind_Done. unfold outcome, events in *. cbn [fst snd app].
  split; [exact IHout|].
  unfold stdout_of in *. rewrite omap_app, Hquiet. cbn [app omap].
  rewrite Sprintf_line_format. cbn. f_equal. exact IHprint.
Qed.

(** X20. The loop of the example program prints one line "path=value" for
    each key it receives, in the order received, as long as the reads
    succeed.  It ends without error when the channel is closed behind the
    last key; it ends in [panic(err)] at the first key whose read fails and
    in a nil dereference at the first nil pointer, having printed the lines
    of the keys before and nothing for the keys behind. *)
Theorem main_loop_prints_the_keys_read (r : RestConn) (good : list IrminPath)
    (value : IrminPath -> string) :
  (forall p, In p good -> exists ev, ReadString r p = (ev, Done (value p, None))) ->
  let lines := map (fun p => IrminPath_String p ++ "=" ++ value p ++ nl) good in
  (outcome (main_loop r (map Some good)) = Done None
   /\ stdout_of (events (main_loop r (map Some good))) = lines)
  /\ (forall bad ev d e later,
        ReadString r bad = (ev, Done (d, Some e)) ->
        outcome (main_loop r (map Some good ++ Some bad :: later)) = Done (Some e)
        /\ stdout_of (events (main_loop r (map Some good ++ Some bad :: later))) = lines)
  /\ (forall later,
        outcome (main_loop r (map Some good ++ None :: later))
        = Panic "invalid memory address or nil pointer dereference"
        /\ stdout_of (events (main_loop r (map Some good ++ None :: later))) = lines).
Proof.
  intros Hgood lines. subst lines. split; [|split].
  - destruct (main_loop_through r good value [] Hgood) as [Hout Hprint].
    rewrite app_nil_r in Hout, Hprint. rewrite Hout, Hprint. cbn. rewrite app_nil_r.
    split; reflexivity.
  - intros bad ev d e later Hbad.
    destruct (main_loop_through r good value (Some bad :: later) Hgood) as [Hout Hprint].
    rewrite Hout, Hprint. cbn [main_loop]. rewrite Hbad, bind_Done.
    pose proof (ReadString_prints_nothing r bad) as Hquiet. rewrite Hbad in Hquiet.
    unfold outcome, events in *. cbn [fst snd mret IO_ret] in *.
    rewrite !app_nil_r, Hquiet, app_nil_r. split; reflexivity.
  - intros later.
    destruct (main_loop_through r good value (None :: later) Hgood) as [Hout Hprint].
    rewrite Hout, Hprint. cbn. rewrite app_nil_r. split; reflexivity.
Qed.

End ExampleProgram.

Lemma main_loop_prints_the_keys_read_witness :
  let routes :=
    [("http://127.0.0.1:8080/read/a", Sample.envelope (JArray [JString "1"]));
     ("http://127.0.0.1:8080/read/b", Sample.envelope (JArray [JArray [JNumber 255]]))] in
  let r := Routes.conn routes "" in
  (forall p, In p [["a"]] -> exists ev, ReadString r p = (ev, Done ("1", None)))
  /\ outcome (main_loop r [Some ["a"]; Some ["b"]; Some ["a"]])
     = Done (Some (Errorf "path %s does not contain a valid utf8 string" ["/b"]))
  /\ stdout_of (events (main_loop r [Some ["a"]; Some ["b"]; Some ["a"]])) = ["/a=1" ++ nl].
Proof.
  intros routes r.
  assert (Hgood : forall p, In p [["a"]] -> exists ev, ReadString r p = (ev, Done ("1", None))).
  { intros p [<-|[]]. eexists. reflexivity. }
  split; [exact Hgood|].
  destruct (main_loop_prints_the_keys_read r [["a"]] (fun _ => "1") Hgood) as (_ & Hbad & _).
  apply (Hbad ["b"] [EvGet "http://127.0.0.1:8080/read/b"; EvClose] ""
           (Errorf "path %s does not contain a valid utf8 string" ["/b"]) [Some ["a"]]).
  reflexivity.
Defined.
